(** * FoodRankr backend: authentication, company workflow and ranking guards

    A shallow embedding of [src/main.py].  Python dictionaries are finite
    maps from field names to dynamically typed values, the MongoDB handle
    [db] is an explicit store threaded through every handler, and raised
    exceptions are the left summand of a handler's result. *)

From Stdlib Require Import ZArith NArith Lia Ascii String.
From stdpp Require Import base option list strings pretty gmap.

Local Open Scope string_scope.
Local Open Scope Z_scope.

(** ** Python values *)

(** [bson.ObjectId].  The id of a stored document is twelve bytes, kept as
    the number below [2 ^ 96] they spell.  [ObjectId(s)] also takes text
    that spells fewer bytes (see [ObjectId_of_str]); such an id, which is
    the id of no stored document, is kept as a number from [2 ^ 96] up. *)
Record ObjectId := mkObjectId { oid_bits : N }.

(** [datetime.date], as Python keeps it. *)
Record date := mkDate { year : Z; month : Z; day : Z }.

(** The values that occur in documents, token payloads and responses.
    A [datetime] is the number of microseconds since the epoch and a
    [timedelta] a number of microseconds. *)
Inductive value :=
| VNone
| VBool (b : bool)
| VInt (z : Z)
| VStr (s : string)
| VOid (o : ObjectId)
| VDatetime (t : Z).

#[global] Instance ObjectId_eq_dec : EqDecision ObjectId.
Proof. solve_decision. Defined.

#[global] Instance value_eq_dec : EqDecision value.
Proof. solve_decision. Defined.

(** A Python [dict] with string keys. *)
Abbreviation document := (gmap string value).

(** Truth value of an object, as [if x:], [not x], [x or y] and [bool(x)]
    take it. *)
Definition truthy (v : value) : bool :=
  match v with
  | VNone => false
  | VBool b => b
  | VInt z => negb (z =? 0)
  | VStr s => negb (bool_decide (s = ""))
  | VOid _ => true
  | VDatetime _ => true
  end.

(** [d.get(k)] and [d.get(k, default)]. *)
Definition get (d : document) (k : string) : value := default VNone (d !! k).
Definition get_default (d : document) (k : string) (dflt : value) : value :=
  default dflt (d !! k).

(** [x or y]. *)
Definition py_or (x y : value) : value := if truthy x then x else y.

(** An [Optional[str]] attribute of a request model as a value. *)
Definition of_optional (o : option string) : value :=
  match o with Some s => VStr s | None => VNone end.

(** ** ObjectId: parsing and printing *)

Definition hex_digit (a : ascii) : option N :=
  let n := N_of_ascii a in
  if ((48 <=? n) && (n <=? 57))%N then Some (n - 48)%N
  else if ((97 <=? n) && (n <=? 102))%N then Some (n - 87)%N
  else if ((65 <=? n) && (n <=? 70))%N then Some (n - 55)%N
  else None.

(** ASCII whitespace: space, and tab to carriage return. *)
Definition is_space (a : ascii) : bool :=
  let n := N_of_ascii a in
  (n =? 32)%N || ((9 <=? n) && (n <=? 13))%N.

(** [bytes.fromhex(s)]: the bytes are spelled by pairs of hexadecimal
    digits, with any whitespace before a pair or at the end skipped.
    Returns the number of bytes, added to [len], and the number they
    spell, continuing [acc]; [None] stands for [ValueError]. *)
Fixpoint fromhex (s : string) (len : nat) (acc : N) : option (nat * N) :=
  match s with
  | EmptyString => Some (len, acc)
  | String a s' =>
      if is_space a then fromhex s' len acc
      else
        match hex_digit a, s' with
        | Some top, String b s'' =>
            match hex_digit b with
            | Some bot => fromhex s'' (S len) (256 * acc + (16 * top + bot))%N
            | None => None
            end
        | _, _ => None
        end
  end.

(** [ObjectId(s)] on a string: [len(s) == 24] and [bytes.fromhex(s)]
    succeeds, otherwise [bson.errors.InvalidId] (here [None]).  24
    hexadecimal digits give the twelve bytes of an id; text of 24
    characters with whitespace in it may spell fewer bytes, and then the
    id made is [2 ^ 96] times the number of bytes missing plus the number
    spelled, which tells ids of different lengths apart. *)
Definition ObjectId_of_str (s : string) : option ObjectId :=
  if bool_decide (String.length s = 24%nat) then
    match fromhex s 0 0 with
    | Some (len, bits) =>
        Some (mkObjectId (if bool_decide (len = 12%nat) then bits
                          else 2 ^ 96 * N.of_nat (12 - len) + bits)%N)
    | None => None
    end
  else None.

(** [ObjectId.is_valid(s)]. *)
Definition ObjectId_is_valid (s : string) : bool :=
  match ObjectId_of_str s with Some _ => true | None => false end.

Definition hex_char (d : N) : ascii :=
  if (d <? 10)%N then ascii_of_N (48 + d) else ascii_of_N (87 + d).

Fixpoint to_hex (k : nat) (n : N) (acc : string) : string :=
  match k with
  | O => acc
  | S k' => to_hex k' (n / 16)%N (String (hex_char (n mod 16)%N) acc)
  end.

(** [str(oid)] for an id of twelve bytes: 24 lower-case hexadecimal
    characters.  The ids that are printed are read from the store or
    fresh. *)
Definition str_oid (o : ObjectId) : string := to_hex 24 (oid_bits o) "".

(** ** Printing *)

Fixpoint zeros (k : nat) : string :=
  match k with O => "" | S k' => String "0" (zeros k') end.

(** ["%0kd"] for a non-negative number. *)
Definition pad (k : nat) (z : Z) : string :=
  let s := pretty z in zeros (k - String.length s) +:+ s.

(** [date.isoformat()]. *)
Definition isoformat (d : date) : string :=
  pad 4 (year d) +:+ "-" +:+ pad 2 (month d) +:+ "-" +:+ pad 2 (day d).

(** Calendar date of a day number counted from 1970-01-01. *)
Definition civil_from_days (z : Z) : date :=
  let z := z + 719468 in
  let era := z / 146097 in
  let doe := z - era * 146097 in
  let yoe := (doe - doe / 1460 + doe / 36524 - doe / 146096) / 365 in
  let doy := doe - (365 * yoe + yoe / 4 - yoe / 100) in
  let mp := (5 * doy + 2) / 153 in
  let m := if mp <? 10 then mp + 3 else mp - 9 in
  mkDate (if m <=? 2 then yoe + era * 400 + 1 else yoe + era * 400)
         m (doy - (153 * mp + 2) / 5 + 1).

(** [str(dt)] for a [datetime]. *)
Definition str_datetime (t : Z) : string :=
  let us := t mod 1000000 in
  let s := t / 1000000 in
  let sod := s mod 86400 in
  isoformat (civil_from_days (s / 86400)) +:+ " " +:+
  pad 2 (sod / 3600) +:+ ":" +:+ pad 2 (sod mod 3600 / 60) +:+ ":" +:+
  pad 2 (sod mod 60) +:+
  (if us =? 0 then "" else "." +:+ pad 6 us).

(** [str(x)]. *)
Definition py_str (v : value) : string :=
  match v with
  | VNone => "None"
  | VBool true => "True"
  | VBool false => "False"
  | VInt z => pretty z
  | VStr s => s
  | VOid o => str_oid o
  | VDatetime t => str_datetime t
  end.

(** [str(x) if isinstance(x, ObjectId) else x]. *)
Definition str_if_oid (v : value) : value :=
  match v with VOid o => VStr (str_oid o) | _ => v end.

(** ** Exceptions, environment and the handler monad *)

Inductive exn :=
| HTTPException (status_code : Z) (detail : string)
| JWTError
| InvalidId (oid : string)
| TypeError
| KeyError (key : string)
| OverflowError.

(** What a request reads from outside the store: the clock behind
    [datetime.utcnow()], in microseconds and taken as one instant for the
    whole request, the configured [SECRET_KEY] and the salted
    [pwd_context.hash] of this request, taken to return a hash for every
    password: what the hashing library does with a password it refuses is
    no part of this model. *)
Record Env := mkEnv {
  now : Z;
  SECRET_KEY : string;
  pwd_hash : string -> string
}.

Definition at_time (t : Z) (e : Env) : Env :=
  mkEnv t (SECRET_KEY e) (pwd_hash e).

(** Modelled from the spec: the persistence layer ([database.db], a module
    that is not among the sources) is a document store with one list of
    documents per collection, in insertion order, and atomic
    single-document operations.  [next_oid] stands for the generator of
    fresh ObjectIds. *)
Record database := mkDb {
  db_user : list document;
  db_company : list document;
  db_pendingcompanyrequest : list document;
  db_foodrank : list document;
  next_oid : N
}.

Inductive collection := user | company | pendingcompanyrequest | foodrank.

Definition coll (c : collection) (db : database) : list document :=
  match c with
  | user => db_user db
  | company => db_company db
  | pendingcompanyrequest => db_pendingcompanyrequest db
  | foodrank => db_foodrank db
  end.

Definition set_coll (c : collection) (l : list document) (db : database)
  : database :=
  match c with
  | user =>
      mkDb l (db_company db) (db_pendingcompanyrequest db) (db_foodrank db)
        (next_oid db)
  | company =>
      mkDb (db_user db) l (db_pendingcompanyrequest db) (db_foodrank db)
        (next_oid db)
  | pendingcompanyrequest =>
      mkDb (db_user db) (db_company db) l (db_foodrank db) (next_oid db)
  | foodrank =>
      mkDb (db_user db) (db_company db) (db_pendingcompanyrequest db) l
        (next_oid db)
  end.

(** A handler reads the environment, may change the store, and either
    returns or raises; the store keeps every write made before a raise. *)
Definition M (A : Type) : Type := Env -> database -> (exn + A) * database.

Definition ret {A} (x : A) : M A := fun _ db => (inr x, db).

Definition bind {A B} (m : M A) (f : A -> M B) : M B := fun e db =>
  match m e db with
  | (inr x, db') => f x e db'
  | (inl err, db') => (inl err, db')
  end.

Notation "x <- m ;; k" := (bind m (fun x => k))
  (at level 100, m at next level, right associativity,
   format "'[v' x  <-  m  ;; '/' k ']'").
Definition raise {A} (err : exn) : M A := fun _ db => (inl err, db).

(** [try: m except JWTError: h]. *)
Definition except_JWTError {A} (m h : M A) : M A := fun e db =>
  match m e db with
  | (inl JWTError, db') => h e db'
  | r => r
  end.

(** [datetime.utcnow()]. *)
Definition utcnow : M Z := fun e db => (inr (now e), db).

(** [d[k]]. *)
Definition getitem (d : document) (k : string) : M value :=
  match d !! k with Some v => ret v | None => raise (KeyError k) end.

(** The result of [find_one] under [if x:]: the document when there is
    one and it is not the empty dict. *)
Definition truthy_doc (o : option document) : option document :=
  match o with
  | Some d => if bool_decide (d = ∅) then None else Some d
  | None => None
  end.

(** ** Store operations *)

(** Modelled from the spec: a query document of equality conditions.  The
    operations of the persistence layer (the collections of [database.db],
    reached through the driver; neither is among the sources) find by
    exact match on fields, the single-document ones taking the first
    match in insertion order. *)
Definition matches (q : list (string * value)) (d : document) : bool :=
  forallb (fun kv => bool_decide (d !! kv.1 = Some kv.2)) q.

(** Modelled from the spec: [find_one(q)], the first stored document that
    matches, [None] when there is none. *)
Definition find_one (c : collection) (q : list (string * value))
  : M (option document) :=
  fun _ db => (inr (List.find (matches q) (coll c db)), db).

(** [ObjectId()]: a fresh id. *)
Definition ObjectId_fresh : M ObjectId := fun _ db =>
  (inr (mkObjectId (next_oid db)),
   mkDb (db_user db) (db_company db) (db_pendingcompanyrequest db)
     (db_foodrank db) (N.succ (next_oid db))).

(** A stored [datetime] keeps whole milliseconds: the microseconds of the
    clock reading are cut to the millisecond below. *)
Definition ms (t : Z) : Z := 1000 * (t / 1000).

Definition bson_date (v : value) : value :=
  match v with VDatetime t => VDatetime (ms t) | _ => v end.

(** Modelled from the spec: the document as the store keeps it.  The
    clock readings a handler writes are the values of [created_at] and
    [updated_at]; what a handler copies from a stored document is at the
    store's precision already. *)
Definition to_store (doc : document) : document :=
  alter bson_date "created_at" (alter bson_date "updated_at" doc).

Arguments to_store : simpl never.

(** Modelled from the spec: [insert_one(doc)] for a document without an
    [_id].  The driver adds a fresh ObjectId to [doc] itself and the store
    appends the document.  Returns [inserted_id] and [doc] as the call
    leaves it, which has the new [_id] and the handler's own values. *)
Definition insert_one (c : collection) (doc : document)
  : M (ObjectId * document) :=
  oid <- ObjectId_fresh ;;
  let doc' := <["_id" := VOid oid]> doc in
  fun _ db =>
    (inr (oid, doc'), set_coll c (coll c db ++ [to_store doc']) db).

Fixpoint update_first (p : document -> bool) (f : document -> document)
  (l : list document) : option (list document) :=
  match l with
  | [] => None
  | d :: l' =>
      if p d then Some (f d :: l') else (d ::.) <$> update_first p f l'
  end.

(** Modelled from the spec: [update_one(q, {"$set": fields})].  The first
    stored document that matches gets the fields, as the store keeps
    them, over its own; returns [matched_count]. *)
Definition update_one (c : collection) (q : list (string * value))
  (fields : document) : M Z :=
  fun _ db =>
    match update_first (matches q) (fun d => to_store fields ∪ d)
            (coll c db) with
    | Some l => (inr 1, set_coll c l db)
    | None => (inr 0, db)
    end.

(** [ObjectId(x)]. *)
Definition ObjectId_new (x : value) : M ObjectId :=
  match x with
  | VNone => ObjectId_fresh
  | VStr s =>
      match ObjectId_of_str s with
      | Some o => ret o
      | None => raise (InvalidId s)
      end
  | VOid o => ret o
  | _ => raise TypeError
  end.

(** ** Token primitives *)

(** A bearer token as the signing library sees it: text that is no signed
    token at all, or a payload together with the key that signed it. *)
Inductive token :=
| Garbled (text : string)
| JWS (key : string) (payload : document).

(** [calendar.timegm(dt.utctimetuple())]: the whole seconds of a
    [datetime], its microseconds dropped. *)
Definition timegm (t : Z) : Z := t / 1000000.

(** A [datetime] under a time claim goes into the token as its whole
    seconds. *)
Definition int_date (k : string) (claims : document) : document :=
  match claims !! k with
  | Some (VDatetime t) => <[k := VInt (timegm t)]> claims
  | _ => claims
  end.

(** Modelled from the spec: [jwt.encode] and [jwt.decode] belong to the
    signing library (python-jose), which is not among the sources.  Their
    contract is that of section 4.2: a token carries its payload under the
    key; validation fails when the signature does not verify or when the
    token has expired, with no leeway, and the subject it yields is a
    string.  When a token has expired is taken from the library, where
    section 4.2 and the library part: [exp] is written in whole seconds,
    the clock is read in whole seconds, and the token is refused when
    [exp] is less than the clock, so that it still passes during the
    second in which it expires.  Of the registered claims only [exp] and
    [sub] are checked here, the two the program writes. *)
Definition jwt_encode (claims : document) (key : string) : token :=
  JWS key (int_date "nbf" (int_date "iat" (int_date "exp" claims))).

Definition jwt_decode (t : token) (key : string) : M document :=
  match t with
  | Garbled _ => raise JWTError
  | JWS k payload =>
      if bool_decide (k = key) then
        t_now <- utcnow ;;
        match payload !! "exp" with
        | Some (VInt exp) =>
            if exp <? timegm t_now then raise JWTError else
            match payload !! "sub" with
            | Some (VStr _) | None => ret payload
            | Some _ => raise JWTError
            end
        | Some _ => raise JWTError
        | None =>
            match payload !! "sub" with
            | Some (VStr _) | None => ret payload
            | Some _ => raise JWTError
            end
        end
      else raise JWTError
  end.

(** ** Request models *)

Module RegisterModel.
Record t := mk {
  email : string;
  password : string;
  full_name : string;
  country : string;
  company : option string;
  cafe_name : option string
}.
End RegisterModel.

Module CompanyCreateModel.
Record t := mk { name : string; country : string }.
End CompanyCreateModel.

Module RankCreateModel.
Record t := mk {
  date : date;
  dish : string;
  rating : Z;
  comment : option string;
  image_url : option string
}.
End RankCreateModel.

Module ProfileUpdateModel.
Record t := mk {
  country : option string;
  company_id : option string;
  cafe_name : option string;
  full_name : option string
}.
End ProfileUpdateModel.

(** ** Auth helpers *)

Definition ACCESS_TOKEN_EXPIRE_MINUTES : Z := 60 * 24.

(** [timedelta(minutes=m)]. *)
Definition timedelta_minutes (m : Z) : Z := m * 60 * 1000000.

Definition get_password_hash (password : string) : M string :=
  fun e db => (inr (pwd_hash e password), db).

(** [datetime.min] and [datetime.max]: the first microsecond of year 1
    and the last of year 9999. *)
Definition datetime_min : Z := -62135596800000000.
Definition datetime_max : Z := 253402300799999999.

Definition datetime_in_range (t : Z) : bool :=
  (datetime_min <=? t) && (t <=? datetime_max).

(** [t + d] for a [datetime] and a [timedelta] the caller chose:
    [OverflowError] when the sum leaves the years 1 to 9999. *)
Definition datetime_add (t d : Z) : M Z :=
  if datetime_in_range (t + d) then ret (t + d) else raise OverflowError.

(** [create_access_token].  In [expires_delta or timedelta(minutes=...)]
    both [None] and the zero duration are false and give the default.
    With the default the sum is taken to be in range: the server clock is
    more than a day short of the end of year 9999. *)
Definition create_access_token (data : document) (expires_delta : option Z)
  : M token :=
  let to_encode := data in
  t_now <- utcnow ;;
  expire <-
    match expires_delta with
    | Some d =>
        if d =? 0
        then ret (t_now + timedelta_minutes ACCESS_TOKEN_EXPIRE_MINUTES)
        else datetime_add t_now d
    | None => ret (t_now + timedelta_minutes ACCESS_TOKEN_EXPIRE_MINUTES)
    end ;;
  let to_encode := <["exp" := VDatetime expire]> to_encode in
  key <- (fun e db => (inr (SECRET_KEY e), db)) ;;
  ret (jwt_encode to_encode key).

Definition get_user_by_email (email : string) : M (option document) :=
  find_one user [("email", VStr email)].

Definition serialize_user (u : document) : M (option document) :=
  if bool_decide (u = ∅) then ret None else
  id <- getitem u "_id" ;;
  ret (Some (
    <["_id" := VStr (py_str id)]> (
    <["email" := get u "email"]> (
    <["full_name" := get u "full_name"]> (
    <["country" := get u "country"]> (
    <["company_id" := get u "company_id"]> (
    <["cafe_name" := get u "cafe_name"]> (
    <["is_admin" := get_default u "is_admin" (VBool false)]> (
    <["created_at" := get u "created_at"]> (
    <["updated_at" := get u "updated_at"]> ∅)))))))))).

Definition credentials_exception : exn :=
  HTTPException 401 "Could not validate credentials".

Definition get_current_user (tok : token) : M document :=
  user_id <-
    except_JWTError
      (key <- (fun e db => (inr (SECRET_KEY e), db)) ;;
       payload <- jwt_decode tok key ;;
       let user_id := get payload "sub" in
       if bool_decide (user_id = VNone) then raise credentials_exception
       else ret user_id)
      (raise credentials_exception) ;;
  oid <- ObjectId_new user_id ;;
  u <- find_one user [("_id", VOid oid)] ;;
  match truthy_doc u with
  | Some d => ret d
  | None => raise credentials_exception
  end.

(** [Depends(get_current_user)]: the handler runs on the resolved user. *)
Definition with_current_user {A} (handler : document -> M A) (tok : token)
  : M A :=
  u <- get_current_user tok ;;
  handler u.

Definition require_admin (u : document) : M document :=
  if negb (truthy (get u "is_admin")) then
    raise (HTTPException 403 "Admin privileges required")
  else ret u.

(** ** Routes *)

Definition register (payload : RegisterModel.t) : M token :=
  existing <- get_user_by_email (RegisterModel.email payload) ;;
  match truthy_doc existing with
  | Some _ => raise (HTTPException 400 "Email already registered")
  | None =>
      company_id <-
        match RegisterModel.company payload with
        | Some c =>
            if truthy (VStr c) then
              comp <-
                (if ObjectId_is_valid (py_str (VStr c)) then
                   oid <- ObjectId_new (VStr (py_str (VStr c))) ;;
                   find_one company [("_id", VOid oid)]
                 else ret None) ;;
              comp <-
                match truthy_doc comp with
                | Some _ => ret comp
                | None => find_one company [("name", VStr c)]
                end ;;
              match truthy_doc comp with
              | Some d =>
                  id <- getitem d "_id" ;;
                  ret (str_if_oid id)
              | None =>
                  t1 <- utcnow ;;
                  t2 <- utcnow ;;
                  _ <- insert_one pendingcompanyrequest (
                         <["name" := VStr c]> (
                         <["country" := VStr (RegisterModel.country payload)]> (
                         <["requested_by" := VNone]> (
                         <["approved" := VBool false]> (
                         <["created_at" := VDatetime t1]> (
                         <["updated_at" := VDatetime t2]> ∅)))))) ;;
                  ret VNone
              end
            else ret VNone
        | None => ret VNone
        end ;;
      hashed <- get_password_hash (RegisterModel.password payload) ;;
      t1 <- utcnow ;;
      t2 <- utcnow ;;
      let user_doc :=
        <["email" := VStr (RegisterModel.email payload)]> (
        <["hashed_password" := VStr hashed]> (
        <["full_name" := VStr (RegisterModel.full_name payload)]> (
        <["country" := VStr (RegisterModel.country payload)]> (
        <["company_id" := company_id]> (
        <["cafe_name" := of_optional (RegisterModel.cafe_name payload)]> (
        <["is_admin" := VBool false]> (
        <["created_at" := VDatetime t1]> (
        <["updated_at" := VDatetime t2]> ∅)))))))) in
      result <- insert_one user user_doc ;;
      create_access_token {["sub" := VStr (py_str (VOid result.1))]} None
  end.

Definition me (u : document) : M (option document) := serialize_user u.

Definition create_company (data : CompanyCreateModel.t) (u : document)
  : M document :=
  let approved_flag := truthy (get u "is_admin") in
  existing <-
    find_one company [("name", VStr (CompanyCreateModel.name data));
                      ("country", VStr (CompanyCreateModel.country data))] ;;
  match truthy_doc existing with
  | Some _ => raise (HTTPException 400 "Company already exists")
  | None =>
      uid <- getitem u "_id" ;;
      t1 <- utcnow ;;
      t2 <- utcnow ;;
      let doc :=
        <["name" := VStr (CompanyCreateModel.name data)]> (
        <["country" := VStr (CompanyCreateModel.country data)]> (
        <["approved" := VBool approved_flag]> (
        <["created_by" := VStr (py_str uid)]> (
        <["created_at" := VDatetime t1]> (
        <["updated_at" := VDatetime t2]> ∅))))) in
      result <- insert_one company doc ;;
      (* {"_id": str(inserted_id), **doc}: the entries of doc, which by
         now holds its own "_id", come last and win *)
      ret (result.2 ∪ {["_id" := VStr (py_str (VOid result.1))]})
  end.

Definition get_profile (u : document) : M (option document) :=
  serialize_user u.

Definition set_if (k : string) (o : option string) (updates : document)
  : document :=
  match o with Some s => <[k := VStr s]> updates | None => updates end.

Definition update_profile (data : ProfileUpdateModel.t) (u : document)
  : M (option document) :=
  let updates : document := ∅ in
  let updates := set_if "country" (ProfileUpdateModel.country data) updates in
  let updates :=
    set_if "cafe_name" (ProfileUpdateModel.cafe_name data) updates in
  let updates :=
    set_if "full_name" (ProfileUpdateModel.full_name data) updates in
  updates <-
    match ProfileUpdateModel.company_id data with
    | Some cid =>
        if truthy (VStr cid) && negb (ObjectId_is_valid cid) then
          raise (HTTPException 400 "Invalid company id")
        else
          oid <- ObjectId_new (VStr cid) ;;
          comp <- find_one company [("_id", VOid oid)] ;;
          match truthy_doc comp with
          | Some c =>
              if negb (truthy (get c "approved")) then
                raise (HTTPException 400 "Company not approved")
              else ret (<["company_id" := VStr cid]> updates)
          | None => raise (HTTPException 400 "Company not approved")
          end
    | None => ret updates
    end ;;
  if bool_decide (updates = ∅) then serialize_user u else
  t <- utcnow ;;
  let updates := <["updated_at" := VDatetime t]> updates in
  id <- getitem u "_id" ;;
  _ <- update_one user [("_id", id)] updates ;;
  (* user.update(updates) *)
  serialize_user (updates ∪ u).

Definition create_rank (data : RankCreateModel.t) (u : document)
  : M document :=
  let company_id := get u "company_id" in
  if negb (truthy company_id) then
    raise (HTTPException 400 "User has no company assigned")
  else if (RankCreateModel.rating data <? 1) || (RankCreateModel.rating data >? 5)
  then raise (HTTPException 400 "Rating must be 1-5")
  else
    id <- getitem u "_id" ;;
    t1 <- utcnow ;;
    t2 <- utcnow ;;
    let doc :=
      <["user_id" := str_if_oid id]> (
      <["company_id" := company_id]> (
      <["cafe_name" := py_or (get u "cafe_name") (VStr "")]> (
      <["country" := get u "country"]> (
      <["date" := VStr (isoformat (RankCreateModel.date data))]> (
      <["dish" := VStr (RankCreateModel.dish data)]> (
      <["rating" := VInt (RankCreateModel.rating data)]> (
      <["image_url" := of_optional (RankCreateModel.image_url data)]> (
      <["comment" := of_optional (RankCreateModel.comment data)]> (
      <["created_at" := VDatetime t1]> (
      <["updated_at" := VDatetime t2]> ∅)))))))))) in
    result <- insert_one foodrank doc ;;
    ret (result.2 ∪ {["_id" := VStr (py_str (VOid result.1))]}).

(** ** Auxiliary definitions for the statements *)

(** The three ways the token part of [get_current_user] can end. *)
Inductive subject_outcome (tok : token) (e : Env) : exn + value -> Prop :=
| subject_rejected :
    subject_outcome tok e (inl credentials_exception)
| subject_found payload s :
    tok = JWS (SECRET_KEY e) payload ->
    payload !! "sub" = Some (VStr s) ->
    subject_outcome tok e (inr (VStr s)).

Definition subject_of (tok : token) : M value :=
  except_JWTError
    (key <- (fun e db => (inr (SECRET_KEY e), db)) ;;
     payload <- jwt_decode tok key ;;
     let user_id := get payload "sub" in
     if bool_decide (user_id = VNone) then raise credentials_exception
     else ret user_id)
    (raise credentials_exception).

(** A company with the name and country of the request is stored. *)
Definition company_exists (data : CompanyCreateModel.t) (db : database)
  : Prop :=
  exists c, c ∈ db_company db
            /\ c !! "name" = Some (VStr (CompanyCreateModel.name data))
            /\ c !! "country" = Some (VStr (CompanyCreateModel.country data)).

Definition Conflict : exn := HTTPException 400 "Company already exists".

Definition NoCompanyAssigned : exn :=
  HTTPException 400 "User has no company assigned".

Definition InvalidRating : exn := HTTPException 400 "Rating must be 1-5".

(** The FoodRank record [create_rank] makes for user [u] with [t] the
    clock reading, and stores with [t] cut to milliseconds. *)
Definition rank_of (data : RankCreateModel.t) (u : document) (id : value)
  (t : Z) (oid : ObjectId) : document :=
  <["_id" := VOid oid]> (
  <["user_id" := str_if_oid id]> (
  <["company_id" := get u "company_id"]> (
  <["cafe_name" := py_or (get u "cafe_name") (VStr "")]> (
  <["country" := get u "country"]> (
  <["date" := VStr (isoformat (RankCreateModel.date data))]> (
  <["dish" := VStr (RankCreateModel.dish data)]> (
  <["rating" := VInt (RankCreateModel.rating data)]> (
  <["image_url" := of_optional (RankCreateModel.image_url data)]> (
  <["comment" := of_optional (RankCreateModel.comment data)]> (
  <["created_at" := VDatetime t]> (
  <["updated_at" := VDatetime t]> ∅))))))))))).

(** The company a reference resolves to at registration: by id when the
    reference is a well-formed id of a stored company, by name
    otherwise. *)
Definition lookup_company (c : string) (db : database) : option document :=
  match ObjectId_of_str c with
  | Some o =>
      match List.find (matches [("_id", VOid o)]) (db_company db) with
      | Some d => Some d
      | None => List.find (matches [("name", VStr c)]) (db_company db)
      end
  | None => List.find (matches [("name", VStr c)]) (db_company db)
  end.

(** The user document [register] stores. *)
Definition user_doc_of (payload : RegisterModel.t) (company_id : value)
  (e : Env) (oid : ObjectId) : document :=
  <["_id" := VOid oid]> (
  <["email" := VStr (RegisterModel.email payload)]> (
  <["hashed_password" := VStr (pwd_hash e (RegisterModel.password payload))]> (
  <["full_name" := VStr (RegisterModel.full_name payload)]> (
  <["country" := VStr (RegisterModel.country payload)]> (
  <["company_id" := company_id]> (
  <["cafe_name" := of_optional (RegisterModel.cafe_name payload)]> (
  <["is_admin" := VBool false]> (
  <["created_at" := VDatetime (ms (now e))]> (
  <["updated_at" := VDatetime (ms (now e))]> ∅))))))))).

(** The pending request [register] stores for an unknown company. *)
Definition pending_of (c country : string) (e : Env) (oid : ObjectId)
  : document :=
  <["_id" := VOid oid]> (
  <["name" := VStr c]> (
  <["country" := VStr country]> (
  <["requested_by" := VNone]> (
  <["approved" := VBool false]> (
  <["created_at" := VDatetime (ms (now e))]> (
  <["updated_at" := VDatetime (ms (now e))]> ∅)))))).

(** The token [register] and [login] hand out for a user id. *)
Definition token_for (e : Env) (oid : ObjectId) : token :=
  JWS (SECRET_KEY e)
    (<["exp" := VInt
         (timegm (now e + timedelta_minutes ACCESS_TOKEN_EXPIRE_MINUTES))]>
       {["sub" := VStr (str_oid oid)]}).

(** Reference [c] matches company [d]: as a well-formed id that is the
    company's [_id], or as the company's exact name. *)
Definition names_company (c : string) (d : document) : Prop :=
  (exists o, ObjectId_of_str c = Some o /\ d !! "_id" = Some (VOid o))
  \/ d !! "name" = Some (VStr c).

(** No stored user has this email. *)
Definition email_free (email : string) (db : database) : Prop :=
  Forall (fun d => d !! "email" ≠ Some (VStr email)) (db_user db).

(** ** Sample data *)

Module Sample.
Definition env : Env :=
  mkEnv 1762241025000000 "supersecretkey" (fun p => "$2b$12$" +:+ p).

(** The same server a little later, at a clock reading that is on no
    whole millisecond. *)
Definition env_late : Env :=
  mkEnv 1762241025001234 "supersecretkey" (fun p => "$2b$12$" +:+ p).

Definition alice : document :=
  <["_id" := VOid (mkObjectId 1)]> (
  <["email" := VStr "alice@example.com"]> (
  <["hashed_password" := VStr "$2b$12$secret"]> (
  <["full_name" := VStr "Alice"]> (
  <["country" := VStr "US"]> (
  <["company_id" := VNone]> (
  <["cafe_name" := VNone]> (
  <["is_admin" := VBool false]> ∅))))))).

Definition alice_sub : string := "000000000000000000000001".

(** The same user after a change of password. *)
Definition alice_rehashed : document :=
  <["hashed_password" := VStr "$2b$12$changed"]> alice.

Definition acme : document :=
  <["_id" := VOid (mkObjectId 2)]> (
  <["name" := VStr "Acme"]> (
  <["country" := VStr "US"]> (
  <["approved" := VBool true]> ∅))).

Definition db : database := mkDb [alice] [acme] [] [] 16.
End Sample.

Module SampleRank.
(** A user as [register] stores one who gave no cafe name, later
    assigned to a company. *)
Definition bob : document :=
  <["_id" := VOid (mkObjectId 3)]> (
  <["email" := VStr "bob@example.com"]> (
  <["hashed_password" := VStr "$2b$12$hunter2"]> (
  <["full_name" := VStr "Bob"]> (
  <["country" := VStr "US"]> (
  <["company_id" := VStr "000000000000000000000002"]> (
  <["cafe_name" := VNone]> (
  <["is_admin" := VBool false]> ∅))))))).

Definition bob_token : token :=
  JWS "supersecretkey" {["sub" := VStr "000000000000000000000003"]}.

Definition db : database := mkDb [Sample.alice; bob] [Sample.acme] [] [] 16.

Definition lunch : RankCreateModel.t :=
  RankCreateModel.mk (mkDate 2025 11 4) "Soup" 4 None None.

(** A store with sixty-five ranks: the first sixty for the company with
    id 2, the last five for the company with id 6. *)
Definition rank_no (n : nat) : document :=
  <["_id" := VOid (mkObjectId (N.of_nat (100 + n)))]> (
  <["user_id" := VStr "000000000000000000000003"]> (
  <["company_id" :=
      VStr (if (n <? 60)%nat then "000000000000000000000002"
            else "000000000000000000000006")]> (
  <["dish" := VStr "Soup"]> (
  <["rating" := VInt 4]> ∅)))).

Definition busy_db : database :=
  mkDb [Sample.alice; bob] [Sample.acme] [] (rank_no <$> seq 0 65) 200.
End SampleRank.

Module SampleReg.
Definition alice_token : token :=
  JWS "supersecretkey" {["sub" := VStr Sample.alice_sub]}.

(** A company whose name is the empty string, as [create_company]
    accepts it. *)
Definition nameless : document :=
  <["_id" := VOid (mkObjectId 4)]> (
  <["name" := VStr ""]> (
  <["country" := VStr "US"]> (
  <["approved" := VBool false]> ∅))).

Definition db : database :=
  mkDb [Sample.alice] [Sample.acme; nameless] [] [] 16.

Definition carol (company : option string) : RegisterModel.t :=
  RegisterModel.mk "carol@example.com" "pw" "Carol" "US" company None.

Definition alice_again : RegisterModel.t :=
  RegisterModel.mk "alice@example.com" "pw" "Alice" "US" (Some "Initech")
    None.

Definition acme_request : CompanyCreateModel.t :=
  CompanyCreateModel.mk "Acme" "US".
End SampleReg.

(** ** Statements that fail as they stand *)

(** The claim of C2 for one time-to-live: a token issued with it is
    refused from the instant of issue plus that time-to-live on. *)
Definition expires_after_ttl (T : Z) : Prop :=
  forall e db data tok t,
    create_access_token data (Some T) e db = (inr tok, db) ->
    now e + T <= t ->
    get_current_user tok (at_time t e) db = (inl credentials_exception, db).

(** The claim of C9 as it is stated: the rank stored by a successful
    creation carries the user's [company_id], [country] and [cafe_name]. *)
Definition rank_copies_profile : Prop :=
  forall e db tok u data r db' doc,
    get_current_user tok e db = (inr u, db) ->
    with_current_user (create_rank data) tok e db = (inr r, db') ->
    last (db_foodrank db') = Some doc ->
    doc !! "company_id" = Some (get u "company_id")
    /\ doc !! "country" = Some (get u "country")
    /\ doc !! "cafe_name" = Some (get u "cafe_name").

(** The claim of C5 as it is stated: a registration whose company
    reference matches a stored company gives the new user that company's
    id. *)
Definition registration_links_company : Prop :=
  forall e db payload c tok db',
    RegisterModel.company payload = Some c ->
    (exists d, d ∈ db_company db /\ names_company c d) ->
    register payload e db = (inr tok, db') ->
    exists d id u,
      d ∈ db_company db /\ names_company c d /\ d !! "_id" = Some id
      /\ last (db_user db') = Some u
      /\ u !! "company_id" = Some (str_if_oid id).

(** The claim of C6 as it is stated: a registration whose company
    reference matches no stored company and no stored pending request
    does not fail, adds one pending request and leaves the new user
    without a company. *)
Definition registration_requests_company : Prop :=
  forall e db payload c,
    RegisterModel.company payload = Some c ->
    (forall d, d ∈ db_company db -> ~ names_company c d) ->
    Forall (fun d => d !! "name" ≠ Some (VStr c))
      (db_pendingcompanyrequest db) ->
    exists tok db' req u,
      register payload e db = (inr tok, db')
      /\ db_pendingcompanyrequest db'
         = (db_pendingcompanyrequest db ++ [req])%list
      /\ db_user db' = (db_user db ++ [u])%list
      /\ u !! "company_id" = Some VNone.

(** ** The other routes *)

Module LoginModel.
Record t := mk { email : string; password : string }.
End LoginModel.

Module ApproveCompanyModel.
Record t := mk { company_id : string; approved : bool }.
End ApproveCompanyModel.

(** [Depends(require_admin)]: the user is resolved first, then checked. *)
Definition with_admin {A} (handler : document -> M A) (tok : token) : M A :=
  u <- get_current_user tok ;;
  admin <- require_admin u ;;
  handler admin.

(** [login].  [verify_password] is [pwd_context.verify] of the hashing
    library, taken as a parameter on the secret and the stored value. *)
Definition login (verify_password : string -> value -> bool)
  (payload : LoginModel.t) : M token :=
  u <- get_user_by_email (LoginModel.email payload) ;;
  match truthy_doc u with
  | None => raise (HTTPException 400 "Incorrect email or password")
  | Some d =>
      if negb (verify_password (LoginModel.password payload)
                 (get_default d "hashed_password" (VStr "")))
      then raise (HTTPException 400 "Incorrect email or password")
      else
        id <- getitem d "_id" ;;
        create_access_token {["sub" := VStr (py_str id)]} None
  end.

(** Modelled from the spec: [find(query)] with the documents in stored
    order, and [count_documents(query)]. *)
Definition find_docs (c : collection) (q : list (string * value))
  : M (list document) :=
  fun _ db => (inr (List.filter (matches q) (coll c db)), db).

Definition count_documents (c : collection) (q : list (string * value))
  : M Z :=
  fun _ db =>
    (inr (Z.of_nat (length (List.filter (matches q) (coll c db)))), db).

(** Modelled from the spec: [cursor.sort(key, direction)] is the store's.
    All that is used of it is that it rearranges the documents it is
    given. *)
Record Sort := mkSort {
  sort_by : string -> Z -> list document -> list document;
  sort_by_perm : forall k dir l, sort_by k dir l ≡ₚ l
}.

(** [for c in docs: c["_id"] = str(c["_id"])]. *)
Fixpoint set_str_ids (docs : list document) : M (list document) :=
  match docs with
  | [] => ret []
  | c :: rest =>
      id <- getitem c "_id" ;;
      rest' <- set_str_ids rest ;;
      ret (<["_id" := VStr (py_str id)]> c :: rest')
  end.

Definition list_companies (srt : Sort) (country : option string)
  (approved : option bool) : M (list document) :=
  let query :=
    match approved with
    | None => [("approved", VBool true)]
    | Some a => [("approved", VBool a)]
    end in
  let query :=
    if truthy (of_optional country)
    then (query ++ [("country", of_optional country)])%list
    else query in
  found <- find_docs company query ;;
  set_str_ids (sort_by srt "name" 1 found).

Definition approve_company (payload : ApproveCompanyModel.t)
  (admin : document) : M document :=
  let cid := ApproveCompanyModel.company_id payload in
  if negb (ObjectId_is_valid cid) then
    raise (HTTPException 400 "Invalid company id")
  else
    oid <- ObjectId_new (VStr cid) ;;
    t <- utcnow ;;
    matched_count <-
      update_one company [("_id", VOid oid)]
        (<["approved" := VBool (ApproveCompanyModel.approved payload)]> (
         <["updated_at" := VDatetime t]> ∅)) ;;
    if matched_count =? 0 then
      raise (HTTPException 404 "Company not found")
    else ret {["status" := VStr "ok"]}.

(** [list_ranks].  [fromisoformat] is [date.fromisoformat], taken as a
    parameter; [None] stands for the exception the handler swallows. *)
Definition list_ranks (srt : Sort) (fromisoformat : string -> option date)
  (company_id date_str : option string) : M (list document) :=
  let query :=
    match company_id with
    | Some c =>
        if truthy (VStr c) && ObjectId_is_valid c
        then [("company_id", VStr c)] else []
    | None => []
    end in
  let query :=
    match date_str with
    | Some s =>
        if truthy (VStr s) then
          match fromisoformat s with
          | Some d => (query ++ [("date", VStr (isoformat d))])%list
          | None => query
          end
        else query
    | None => query
    end in
  found <- find_docs foodrank query ;;
  set_str_ids (take 50 (sort_by srt "created_at" (-1) found)).

Definition admin_stats (admin : document) : M document :=
  users <- count_documents user [] ;;
  companies <- count_documents company [] ;;
  ranks <- count_documents foodrank [] ;;
  pending <- count_documents company [("approved", VBool false)] ;;
  ret (<["users" := VInt users]> (
       <["companies" := VInt companies]> (
       <["ranks" := VInt ranks]> (
       <["pending_companies" := VInt pending]> ∅)))).

(** ** Invariants of the store *)

(** Every id in the collection was handed out by the generator: the next
    one is new. *)
Definition ids_below (n : N) (l : list document) : Prop :=
  Forall (fun d => forall o, d !! "_id" = Some (VOid o) ->
                             (oid_bits o < n)%N) l.

(** No two stored users share an email. *)
Definition emails_unique (db : database) : Prop :=
  NoDup ((fun d : document => d !! "email") <$> db_user db).

(** No two stored companies share name and country. *)
Definition companies_unique (db : database) : Prop :=
  NoDup ((fun d : document => (d !! "name", d !! "country"))
           <$> db_company db).

(** The keys [update_profile] may write. *)
Definition profile_keys : list string :=
  ["country"; "cafe_name"; "full_name"; "company_id"; "updated_at"].

(** The keys of a serialised profile. *)
Definition serialized_keys : gset string :=
  list_to_set ["_id"; "email"; "full_name"; "country"; "company_id";
               "cafe_name"; "is_admin"; "created_at"; "updated_at"].

(** The company document after [approve_company] at the stored time
    [t]. *)
Definition approval (flag : bool) (t : Z) (c : document) : document :=
  <["approved" := VBool flag]> (<["updated_at" := VDatetime t]> c).

(** The two halves of [update_profile]: the check of a supplied company
    id, and the write. *)
Definition profile_company_stage (data : ProfileUpdateModel.t)
  (updates : document) : M document :=
  match ProfileUpdateModel.company_id data with
  | Some cid =>
      if truthy (VStr cid) && negb (ObjectId_is_valid cid) then
        raise (HTTPException 400 "Invalid company id")
      else
        oid <- ObjectId_new (VStr cid) ;;
        comp <- find_one company [("_id", VOid oid)] ;;
        match truthy_doc comp with
        | Some c =>
            if negb (truthy (get c "approved")) then
              raise (HTTPException 400 "Company not approved")
            else ret (<["company_id" := VStr cid]> updates)
        | None => raise (HTTPException 400 "Company not approved")
        end
  | None => ret updates
  end.

Definition profile_write (u updates : document) : M (option document) :=
  if bool_decide (updates = ∅) then serialize_user u else
  t <- utcnow ;;
  let updates := <["updated_at" := VDatetime t]> updates in
  id <- getitem u "_id" ;;
  _ <- update_one user [("_id", id)] updates ;;
  serialize_user (updates ∪ u).

(** What a profile update supplies for one of the plain fields. *)
Definition supplied (data : ProfileUpdateModel.t) (k : string)
  : option string :=
  if bool_decide (k = "country") then ProfileUpdateModel.country data
  else if bool_decide (k = "cafe_name") then ProfileUpdateModel.cafe_name data
  else if bool_decide (k = "full_name") then ProfileUpdateModel.full_name data
  else None.

(** The company document [create_company] makes with [t] the clock
    reading, and stores with [t] cut to milliseconds. *)
Definition company_doc (data : CompanyCreateModel.t) (u : document)
  (id : value) (t : Z) (oid : ObjectId) : document :=
  <["_id" := VOid oid]> (
  <["name" := VStr (CompanyCreateModel.name data)]> (
  <["country" := VStr (CompanyCreateModel.country data)]> (
  <["approved" := VBool (truthy (get u "is_admin"))]> (
  <["created_by" := VStr (py_str id)]> (
  <["created_at" := VDatetime t]> (
  <["updated_at" := VDatetime t]> ∅)))))).

(** How a registration can end. *)
Inductive register_outcome (payload : RegisterModel.t) (e : Env)
  (db : database) : (exn + token) * database -> Prop :=
| register_refused :
    ~ email_free (RegisterModel.email payload) db ->
    register_outcome payload e db
      (inl (HTTPException 400 "Email already registered"), db)
| register_broken :
    register_outcome payload e db (inl (KeyError "_id"), db)
| register_stored oid company_id pending :
    email_free (RegisterModel.email payload) db ->
    (next_oid db <= oid_bits oid <= N.succ (next_oid db))%N ->
    (pending = []
     \/ exists c, RegisterModel.company payload = Some c
                  /\ pending = [pending_of c (RegisterModel.country payload)
                                  e (mkObjectId (next_oid db))]) ->
    (RegisterModel.company payload = None
     \/ RegisterModel.company payload = Some "" ->
     company_id = VNone /\ pending = []) ->
    register_outcome payload e db
      (inr (token_for e oid),
       mkDb (db_user db ++ [user_doc_of payload company_id e oid])
         (db_company db) (db_pendingcompanyrequest db ++ pending)
         (db_foodrank db) (N.succ (oid_bits oid))).

(** A sort for the samples: the documents as they come. *)
Definition stored_order : Sort :=
  mkSort (fun _ _ l => l) (fun _ _ l => reflexivity l).

Module SampleAdmin.
Definition root : document :=
  <["_id" := VOid (mkObjectId 5)]> (
  <["email" := VStr "root@example.com"]> (
  <["hashed_password" := VStr "$2b$12$root"]> (
  <["is_admin" := VBool true]> ∅))).

Definition root_token : token :=
  JWS "supersecretkey" {["sub" := VStr "000000000000000000000005"]}.

Definition initech : document :=
  <["_id" := VOid (mkObjectId 6)]> (
  <["name" := VStr "Initech"]> (
  <["country" := VStr "US"]> (
  <["approved" := VBool false]> ∅))).

Definition initech_id : string := "000000000000000000000006".

Definition db : database :=
  mkDb [Sample.alice; root] [Sample.acme; initech] [] [] 16.

Definition approve_initech : ApproveCompanyModel.t :=
  ApproveCompanyModel.mk initech_id true.
End SampleAdmin.

(** [_id] replaced by its text, as the listings return a document. *)
Definition with_str_id (d : document) : document :=
  <["_id" := VStr (py_str (get d "_id"))]> d.

(** The dict [admin_stats] returns. *)
Definition stats (users companies ranks pending : Z) : document :=
  <["users" := VInt users]> (
  <["companies" := VInt companies]> (
  <["ranks" := VInt ranks]> (
  <["pending_companies" := VInt pending]> ∅))).

Module SampleLogin.
Definition accept (stored : string) (secret : string) (hash : value) : bool :=
  bool_decide (hash = VStr stored) && bool_decide (secret = "correct horse").

Definition alice_login : LoginModel.t :=
  LoginModel.mk "alice@example.com" "correct horse".
End SampleLogin.

(** * Properties *)

(** ** Printing and parsing *)

Example str_oid_ex :
  str_oid <$> ObjectId_of_str "65A1B2C3D4E5F60718293A4B"
  = Some "65a1b2c3d4e5f60718293a4b".
Proof. vm_compute. reflexivity. Qed.

Example ObjectId_short : ObjectId_of_str "abc" = None.
Proof. reflexivity. Qed.

(** Text of 24 characters is taken as [bytes.fromhex] takes it: digits
    that do not pair up are refused, and whitespace between pairs is
    skipped, which leaves an id of fewer than twelve bytes. *)
Example ObjectId_not_hex :
  ObjectId_of_str "00000000000000000000000g" = None
  /\ ObjectId_of_str "0 0000000000000000000000" = None.
Proof. split; reflexivity. Qed.

Example ObjectId_with_spaces :
  ObjectId_is_valid "0000000000000000000001  " = true
  /\ ObjectId_of_str "0000000000000000000001  "
     = Some (mkObjectId (2 ^ 96 + 1))
  /\ ObjectId_of_str "0000000000000000000001  "
     ≠ ObjectId_of_str "000000000000000000000001".
Proof. repeat split; vm_compute; congruence. Qed.

Example str_datetime_ex :
  str_datetime 1762241025000007 = "2025-11-04 07:23:45.000007".
Proof. vm_compute. reflexivity. Qed.

Example py_str_neg : py_str (VInt (-12)) = "-12".
Proof. vm_compute. reflexivity. Qed.

(** ** Profile serialisation *)

Lemma nonempty_lookup (d : document) k v : d !! k = Some v -> d ≠ ∅.
Proof. intros H ->. by rewrite lookup_empty in H. Qed.

Lemma get_agree (u1 u2 : document) k :
  u1 !! k = u2 !! k -> get u1 k = get u2 k.
Proof. unfold get. by intros ->. Qed.

Lemma serialize_user_stored (u : document) id e db :
  u !! "_id" = Some id ->
  exists r, serialize_user u e db = (inr (Some r), db)
            /\ r !! "hashed_password" = None
            /\ r !! "_id" = Some (VStr (py_str id))
            /\ r !! "company_id" = Some (get u "company_id")
            /\ r !! "updated_at" = Some (get u "updated_at").
Proof.
  intros Hid. unfold serialize_user.
  rewrite bool_decide_eq_false_2 by eauto using nonempty_lookup.
  unfold bind, getitem. rewrite Hid. eexists. split; [reflexivity|].
  repeat split; by simplify_map_eq.
Qed.

(** C10: two user records with an [_id] that differ at most in
    [hashed_password] are serialised identically by [/auth/me] and
    [/user/profile], and the profile returned has no [hashed_password]
    entry. *)
Theorem serialize_user_independent_of_hash (u1 u2 : document) e db :
  is_Some (u1 !! "_id") ->
  (forall k, k ≠ "hashed_password" -> u1 !! k = u2 !! k) ->
  serialize_user u1 e db = serialize_user u2 e db
  /\ me u1 e db = me u2 e db
  /\ get_profile u1 e db = get_profile u2 e db
  /\ exists r, serialize_user u1 e db = (inr (Some r), db)
               /\ r !! "hashed_password" = None.
Proof.
  intros [id Hid] Hagree.
  assert (Hid2 : u2 !! "_id" = Some id) by (rewrite <- Hagree; done).
  assert (Heq : serialize_user u1 e db = serialize_user u2 e db).
  { unfold serialize_user.
    rewrite !bool_decide_eq_false_2 by eauto using nonempty_lookup.
    unfold bind, getitem, get_default. rewrite Hid, Hid2.
    rewrite !(get_agree u1 u2) by (apply Hagree; done).
    by rewrite (Hagree "is_admin"). }
  repeat split; try exact Heq.
  destruct (serialize_user_stored u1 id e db Hid) as (r & Hr & Hh & _).
  eauto.
Qed.

Lemma serialize_user_independent_of_hash_witness :
  is_Some (Sample.alice !! "_id")
  /\ (forall k, k ≠ "hashed_password" ->
        Sample.alice !! k = Sample.alice_rehashed !! k)
  /\ serialize_user Sample.alice Sample.env Sample.db
     = serialize_user Sample.alice_rehashed Sample.env Sample.db
  /\ me Sample.alice Sample.env Sample.db
     = me Sample.alice_rehashed Sample.env Sample.db
  /\ get_profile Sample.alice Sample.env Sample.db
     = get_profile Sample.alice_rehashed Sample.env Sample.db
  /\ exists r, serialize_user Sample.alice Sample.env Sample.db
               = (inr (Some r), Sample.db)
               /\ r !! "hashed_password" = None.
Proof.
  assert (H1 : is_Some (Sample.alice !! "_id"))
    by (exists (VOid (mkObjectId 1)); reflexivity).
  assert (H2 : forall k, k ≠ "hashed_password" ->
                 Sample.alice !! k = Sample.alice_rehashed !! k).
  { intros k Hk. unfold Sample.alice_rehashed.
    rewrite lookup_insert_ne; done. }
  split; [exact H1|]. split; [exact H2|].
  exact (serialize_user_independent_of_hash Sample.alice
           Sample.alice_rehashed Sample.env Sample.db H1 H2).
Defined.

(** ** Identity resolution *)

Lemma matches_id (d : document) v :
  matches [("_id", v)] d = true <-> d !! "_id" = Some v.
Proof.
  unfold matches; simpl. rewrite andb_true_r. apply bool_decide_eq_true.
Qed.

Lemma find_one_spec c q e db :
  find_one c q e db = (inr (List.find (matches q) (coll c db)), db).
Proof. reflexivity. Qed.

Lemma find_matches q (l : list document) d :
  List.find (matches q) l = Some d -> d ∈ l /\ matches q d = true.
Proof.
  intros H. apply find_some in H as [Hin Hm]. split; [|done].
  by apply list_elem_of_In.
Qed.

Lemma find_none_iff q (l : list document) :
  List.find (matches q) l = None <-> Forall (fun d => matches q d = false) l.
Proof.
  induction l as [|d l IH]; simpl.
  - split; [constructor|done].
  - destruct (matches q d) eqn:Hm.
    + split; [done|]. intros H. inversion H; congruence.
    + rewrite IH. split; [by constructor|]. by intros H; inversion H.
Qed.

Lemma truthy_doc_matches q d (l : list document) :
  q ≠ [] -> List.find (matches q) l = Some d ->
  truthy_doc (Some d) = Some d.
Proof.
  intros Hq Hf. apply find_matches in Hf as [_ Hm].
  destruct q as [|[k v] q]; [done|]. simpl in Hm.
  apply andb_true_iff in Hm as [Hm _]. apply bool_decide_eq_true in Hm.
  simpl. rewrite bool_decide_eq_false_2; eauto using nonempty_lookup.
Qed.

(** One step of a handler: unfold the monad and compute. *)
Ltac run :=
  repeat (progress
    (cbv [bind ret raise utcnow getitem except_JWTError find_one
          get_password_hash]; simpl)).

Local Ltac rejected :=
  eexists; split; [reflexivity | apply subject_rejected].

Local Ltac sub_cases payload :=
  let Hsub := fresh "Hsub" in
  destruct (payload !! "sub") as [[| | |?| |]|] eqn:Hsub; run;
  rewrite ?Hsub; run; try rejected;
  rewrite ?bool_decide_eq_false_2 by done;
  eexists; split; [reflexivity|]; by econstructor.

Lemma get_current_user_unfold tok :
  get_current_user tok =
  (user_id <- subject_of tok ;;
   oid <- ObjectId_new user_id ;;
   u <- find_one user [("_id", VOid oid)] ;;
   match truthy_doc u with
   | Some d => ret d
   | None => raise credentials_exception
   end).
Proof. reflexivity. Qed.

Lemma subject_of_outcome tok e db :
  exists r, subject_of tok e db = (r, db) /\ subject_outcome tok e r.
Proof.
  unfold subject_of, jwt_decode, get.
  destruct tok as [txt|k payload]; run; [rejected|].
  case_bool_decide as Hk; run; [subst k|rejected].
  destruct (payload !! "exp") as [[| |x| | |]|] eqn:Hexp; run;
    try rejected.
  - destruct (x <? timegm (now e)); run; [rejected|]. sub_cases payload.
  - sub_cases payload.
Qed.

(** Whatever the token, [get_current_user] leaves the store alone and ends
    in one of three ways: the stored user with the token's subject as its
    id, the credentials error, or an [InvalidId] that nothing catches. *)
Lemma get_current_user_outcomes tok e db :
  exists r, get_current_user tok e db = (r, db) /\
    ((exists u o, r = inr u /\ u ∈ db_user db /\ u !! "_id" = Some (VOid o))
     \/ r = inl credentials_exception
     \/ (exists s, r = inl (InvalidId s) /\ ObjectId_of_str s = None)).
Proof.
  rewrite get_current_user_unfold. unfold bind at 1.
  destruct (subject_of_outcome tok e db) as (r & -> & Hr).
  destruct Hr as [|payload s -> Hsub]; [eauto|].
  unfold ObjectId_new.
  destruct (ObjectId_of_str s) as [o|] eqn:Ho; run; [|eauto 8].
  destruct (List.find (matches [("_id", VOid o)]) (db_user db)) as [d|] eqn:Hf;
    run; [|eauto].
  pose proof Hf as Hd. apply find_matches in Hd as [Hin Hm].
  apply matches_id in Hm.
  rewrite bool_decide_eq_false_2 by eauto using nonempty_lookup.
  eexists; split; [reflexivity|]. left. eauto.
Qed.

Lemma get_current_user_ok tok e db u db' :
  get_current_user tok e db = (inr u, db') ->
  db' = db /\ u ∈ db_user db /\ exists o, u !! "_id" = Some (VOid o).
Proof.
  intros H.
  destruct (get_current_user_outcomes tok e db)
    as (r & Hr & [(u' & o & -> & Hin & Hid)|[->|(s & -> & _)]]);
    rewrite Hr in H; simplify_eq; eauto.
Qed.

Lemma subject_of_signed e db (payload : document) s :
  payload !! "exp" = None ->
  payload !! "sub" = Some (VStr s) ->
  subject_of (JWS (SECRET_KEY e) payload) e db = (inr (VStr s), db).
Proof.
  intros Hexp Hsub. unfold subject_of, jwt_decode, get. run.
  rewrite bool_decide_eq_true_2 by done. run.
  rewrite Hexp, Hsub. run. rewrite Hsub. reflexivity.
Qed.

(** A token whose signature does not verify is refused with the
    credentials error. *)
Lemma get_current_user_bad_signature e db k payload :
  k ≠ SECRET_KEY e ->
  get_current_user (JWS k payload) e db = (inl credentials_exception, db).
Proof.
  intros Hk. unfold get_current_user, jwt_decode. run.
  rewrite bool_decide_eq_false_2 by done. reflexivity.
Qed.

Lemma get_current_user_garbled e db txt :
  get_current_user (Garbled txt) e db = (inl credentials_exception, db).
Proof. reflexivity. Qed.

(** A token without a subject is refused with the credentials error. *)
Lemma get_current_user_no_subject e db k (payload : document) :
  payload !! "sub" = None ->
  get_current_user (JWS k payload) e db = (inl credentials_exception, db).
Proof.
  intros Hsub.
  destruct (get_current_user_outcomes (JWS k payload) e db)
    as (r & Hr & Hcases).
  rewrite Hr. f_equal.
  revert Hr. rewrite get_current_user_unfold. unfold bind at 1.
  destruct (subject_of_outcome (JWS k payload) e db) as (r' & -> & Hr').
  destruct Hr' as [|payload' s Heq Hsub'].
  - by intros [= <-].
  - simplify_eq.
Qed.

(** A valid token whose subject names no stored user is refused with the
    credentials error. *)
Lemma get_current_user_unknown_subject e db (payload : document) s o :
  payload !! "exp" = None ->
  payload !! "sub" = Some (VStr s) ->
  ObjectId_of_str s = Some o ->
  Forall (fun d => d !! "_id" ≠ Some (VOid o)) (db_user db) ->
  get_current_user (JWS (SECRET_KEY e) payload) e db
  = (inl credentials_exception, db).
Proof.
  intros Hexp Hsub Ho Hnone.
  rewrite get_current_user_unfold. unfold bind at 1.
  rewrite (subject_of_signed e db payload s) by done.
  unfold ObjectId_new. rewrite Ho. run.
  replace (List.find _ _) with (@None document); [reflexivity|].
  symmetry. apply find_none_iff.
  eapply Forall_impl; [exact Hnone|]. intros d Hd; simpl in Hd.
  destruct (matches _ d) eqn:Hm; [|done]. by apply matches_id in Hm.
Qed.

(** C1: a correctly signed token whose subject is not a well-formed store
    id does not get the credentials error: [ObjectId(user_id)] raises
    [InvalidId] outside the [try], nothing catches it, and the failure is
    distinguishable from the one a token with a bad signature gets. *)
Theorem get_current_user_malformed_subject e db :
  get_current_user (JWS (SECRET_KEY e) {["sub" := VStr "abc"]}) e db
  = (inl (InvalidId "abc"), db)
  /\ get_current_user (Garbled "abc") e db = (inl credentials_exception, db)
  /\ InvalidId "abc" ≠ credentials_exception.
Proof.
  split; [|split; [reflexivity|discriminate]].
  rewrite get_current_user_unfold. unfold bind at 1.
  rewrite (subject_of_signed e db _ "abc") by done.
  reflexivity.
Qed.

(** ** Token lifetime *)

Lemma subject_of_expired e db (payload : document) x t :
  payload !! "exp" = Some (VInt x) -> x < timegm t ->
  subject_of (JWS (SECRET_KEY e) payload) (at_time t e) db
  = (inl credentials_exception, db).
Proof.
  intros Hexp Hle. unfold subject_of, jwt_decode. run.
  rewrite bool_decide_eq_true_2 by done. run. rewrite Hexp.
  replace (x <? timegm t) with true by (symmetry; apply Z.ltb_lt; lia).
  reflexivity.
Qed.

Lemma subject_of_live e db (payload : document) x t s :
  payload !! "exp" = Some (VInt x) -> timegm t <= x ->
  payload !! "sub" = Some (VStr s) ->
  subject_of (JWS (SECRET_KEY e) payload) (at_time t e) db
  = (inr (VStr s), db).
Proof.
  intros Hexp Hlt Hsub. unfold subject_of, jwt_decode, get. run.
  rewrite bool_decide_eq_true_2 by done. run. rewrite Hexp.
  replace (x <? timegm t) with false by (symmetry; apply Z.ltb_ge; lia).
  rewrite Hsub. run. rewrite Hsub. reflexivity.
Qed.

(** The token for a subject, as the encoder writes it. *)
Lemma jwt_encode_sub s x key :
  jwt_encode (<["exp" := VDatetime x]> {["sub" := VStr s]}) key
  = JWS key (<["exp" := VInt (timegm x)]> {["sub" := VStr s]}).
Proof. reflexivity. Qed.

Lemma create_access_token_default s expires_delta e db :
  expires_delta = None \/ expires_delta = Some 0 ->
  create_access_token {["sub" := VStr s]} expires_delta e db
  = (inr (JWS (SECRET_KEY e)
            (<["exp" := VInt (timegm (now e + timedelta_minutes
                                                 ACCESS_TOKEN_EXPIRE_MINUTES))]>
               {["sub" := VStr s]})), db).
Proof. by intros [-> | ->]. Qed.

Lemma create_access_token_supplied s T e db :
  T ≠ 0 ->
  create_access_token {["sub" := VStr s]} (Some T) e db
  = if datetime_in_range (now e + T)
    then (inr (JWS (SECRET_KEY e)
                 (<["exp" := VInt (timegm (now e + T))]> {["sub" := VStr s]})),
          db)
    else (inl OverflowError, db).
Proof.
  intros HT. unfold create_access_token, datetime_add. run.
  destruct (T =? 0) eqn:E; [apply Z.eqb_eq in E; lia|].
  by destruct (datetime_in_range (now e + T)).
Qed.

Lemma datetime_in_range_spec t :
  datetime_in_range t = true <-> datetime_min <= t <= datetime_max.
Proof.
  unfold datetime_in_range. rewrite andb_true_iff, !Z.leb_le. done.
Qed.

Lemma get_current_user_resolves e db (payload : document) s o u :
  subject_of (JWS (SECRET_KEY e) payload) e db = (inr (VStr s), db) ->
  ObjectId_of_str s = Some o ->
  List.find (matches [("_id", VOid o)]) (db_user db) = Some u ->
  get_current_user (JWS (SECRET_KEY e) payload) e db = (inr u, db).
Proof.
  intros Hsub Ho Hu.
  rewrite get_current_user_unfold. unfold bind at 1. rewrite Hsub.
  unfold ObjectId_new. rewrite Ho. run. rewrite Hu.
  apply find_matches in Hu as [_ Hm]. apply matches_id in Hm.
  unfold truthy_doc.
  rewrite bool_decide_eq_false_2 by eauto using nonempty_lookup.
  reflexivity.
Qed.

(** A signed token with subject [s] and expiry [x], in whole seconds, is
    good while the clock's whole seconds are not past [x]. *)
Lemma signed_token_live e db s x t o u :
  timegm t <= x ->
  ObjectId_of_str s = Some o ->
  List.find (matches [("_id", VOid o)]) (db_user db) = Some u ->
  get_current_user
    (JWS (SECRET_KEY e) (<["exp" := VInt x]> {["sub" := VStr s]}))
    (at_time t e) db
  = (inr u, db).
Proof.
  intros Ht Ho Hu.
  change (SECRET_KEY e) with (SECRET_KEY (at_time t e)).
  apply (get_current_user_resolves (at_time t e) db _ s o u); [|done..].
  by apply (subject_of_live e db _ x t s).
Qed.

Lemma signed_token_expired e db (payload : document) x t :
  payload !! "exp" = Some (VInt x) -> x < timegm t ->
  get_current_user (JWS (SECRET_KEY e) payload) (at_time t e) db
  = (inl credentials_exception, db).
Proof.
  intros Hexp Ht.
  change (SECRET_KEY e) with (SECRET_KEY (at_time t e)).
  rewrite get_current_user_unfold. unfold bind at 1.
  change (SECRET_KEY (at_time t e)) with (SECRET_KEY e).
  by rewrite (subject_of_expired e db payload x t).
Qed.

(** C2, as amended: a token issued for a subject with a time-to-live [T]
    other than zero, or with none or zero given and [T] the default of 24
    hours, expires with the whole second that holds the instant of issue
    plus [T].  It resolves the stored user its subject names at every
    time whose whole second is not past the whole second of issue plus
    [T], the instant of issue plus [T] itself among them, and is refused
    with the credentials error at every time from the next whole second
    on: there is no further leeway.  All this when issue plus [T] is a
    date of the years 1 to 9999; when a time-to-live other than zero
    takes it outside, no token is issued and [OverflowError] is raised. *)
Theorem token_lifetime e db s expires_delta T :
  (expires_delta = Some T /\ T ≠ 0) \/
  ((expires_delta = None \/ expires_delta = Some 0)
   /\ T = 24 * 60 * 60 * 1000000) ->
  (datetime_min <= now e + T <= datetime_max ->
   exists tok,
     create_access_token {["sub" := VStr s]} expires_delta e db
     = (inr tok, db)
     /\ (forall t db' o u,
           timegm t <= timegm (now e + T) ->
           ObjectId_of_str s = Some o ->
           List.find (matches [("_id", VOid o)]) (db_user db') = Some u ->
           get_current_user tok (at_time t e) db' = (inr u, db'))
     /\ (forall t db' o u,
           t <= now e + T ->
           ObjectId_of_str s = Some o ->
           List.find (matches [("_id", VOid o)]) (db_user db') = Some u ->
           get_current_user tok (at_time t e) db' = (inr u, db'))
     /\ (forall t db',
           timegm (now e + T) < timegm t ->
           get_current_user tok (at_time t e) db'
           = (inl credentials_exception, db'))
     /\ (forall t db',
           now e + T + 1000000 <= t ->
           get_current_user tok (at_time t e) db'
           = (inl credentials_exception, db')))
  /\ (~ datetime_min <= now e + T <= datetime_max ->
      expires_delta = Some T -> T ≠ 0 ->
      create_access_token {["sub" := VStr s]} expires_delta e db
      = (inl OverflowError, db)).
Proof.
  intros HT. split.
  - intros Hrange.
    assert (Htok : create_access_token {["sub" := VStr s]} expires_delta e db
                   = (inr (JWS (SECRET_KEY e)
                             (<["exp" := VInt (timegm (now e + T))]>
                                {["sub" := VStr s]})), db)).
    { destruct HT as [[-> HT]|[Hd ->]].
      - rewrite create_access_token_supplied by done.
        by rewrite (proj2 (datetime_in_range_spec _) Hrange).
      - by rewrite create_access_token_default. }
    rewrite Htok. eexists. split; [reflexivity|].
    split; [|split; [|split]].
    + intros t db' o u Ht. by apply signed_token_live.
    + intros t db' o u Ht. apply signed_token_live. unfold timegm.
      apply Z.div_le_mono; lia.
    + intros t db' Ht. eapply signed_token_expired; [|exact Ht].
      apply lookup_insert_eq.
    + intros t db' Ht. eapply signed_token_expired; [apply lookup_insert_eq|].
      unfold timegm.
      assert (Hdiv : (now e + T) / 1000000 + 1 <= t / 1000000).
      { replace ((now e + T) / 1000000 + 1)
          with ((now e + T + 1 * 1000000) / 1000000)
          by (rewrite Z.div_add by lia; reflexivity).
        apply Z.div_le_mono; lia. }
      lia.
  - intros Hout -> HT0. rewrite create_access_token_supplied by done.
    destruct (datetime_in_range (now e + T)) eqn:E; [|reflexivity].
    apply datetime_in_range_spec in E. contradiction.
Qed.

Lemma token_lifetime_witness :
  ((Some 60000000 = Some 60000000 /\ 60000000 ≠ 0) \/
   ((Some 60000000 = None \/ Some 60000000 = Some 0)
    /\ 60000000 = 24 * 60 * 60 * 1000000))
  /\ datetime_min <= now Sample.env + 60000000 <= datetime_max
  /\ exists tok,
     create_access_token {["sub" := VStr Sample.alice_sub]} (Some 60000000)
       Sample.env Sample.db
     = (inr tok, Sample.db)
     /\ (forall t db' o u,
           timegm t <= timegm (now Sample.env + 60000000) ->
           ObjectId_of_str Sample.alice_sub = Some o ->
           List.find (matches [("_id", VOid o)]) (db_user db') = Some u ->
           get_current_user tok (at_time t Sample.env) db' = (inr u, db'))
     /\ (forall t db' o u,
           t <= now Sample.env + 60000000 ->
           ObjectId_of_str Sample.alice_sub = Some o ->
           List.find (matches [("_id", VOid o)]) (db_user db') = Some u ->
           get_current_user tok (at_time t Sample.env) db' = (inr u, db'))
     /\ (forall t db',
           timegm (now Sample.env + 60000000) < timegm t ->
           get_current_user tok (at_time t Sample.env) db'
           = (inl credentials_exception, db'))
     /\ (forall t db',
           now Sample.env + 60000000 + 1000000 <= t ->
           get_current_user tok (at_time t Sample.env) db'
           = (inl credentials_exception, db')).
Proof.
  assert (H : (Some 60000000 = Some 60000000 /\ 60000000 ≠ 0) \/
              ((Some 60000000 = None \/ Some 60000000 = Some 0)
               /\ 60000000 = 24 * 60 * 60 * 1000000))
    by (left; split; [reflexivity|lia]).
  assert (Hr : datetime_min <= now Sample.env + 60000000 <= datetime_max)
    by (unfold datetime_min, datetime_max; simpl; lia).
  split; [exact H|]. split; [exact Hr|].
  exact (proj1 (token_lifetime Sample.env Sample.db Sample.alice_sub
                  (Some 60000000) 60000000 H) Hr).
Defined.

Lemma sample_alice_found :
  ObjectId_of_str Sample.alice_sub = Some (mkObjectId 1)
  /\ List.find (matches [("_id", VOid (mkObjectId 1))]) (db_user Sample.db)
     = Some Sample.alice.
Proof. split; reflexivity. Qed.

(** C2 as stated fails twice over.  A token issued with a time-to-live of
    one minute still resolves its user at the instant of issue plus one
    minute, and until the end of that second: expiry is compared in whole
    seconds and a token is refused only when [exp] is less than the
    clock.  And a token issued with a time-to-live of zero gets the
    default, [expires_delta or ...] taking the zero duration for an absent
    one: it resolves its user an hour after issue. *)
Lemma token_accepted_at_expiry :
  (exists tok,
     create_access_token {["sub" := VStr Sample.alice_sub]} (Some 60000000)
       Sample.env Sample.db = (inr tok, Sample.db)
     /\ get_current_user tok
          (at_time (now Sample.env + 60000000) Sample.env) Sample.db
        = (inr Sample.alice, Sample.db)
     /\ get_current_user tok
          (at_time (now Sample.env + 60000000 + 999999) Sample.env) Sample.db
        = (inr Sample.alice, Sample.db))
  /\ (exists tok,
       create_access_token {["sub" := VStr Sample.alice_sub]} (Some 0)
         Sample.env Sample.db = (inr tok, Sample.db)
       /\ get_current_user tok
            (at_time (now Sample.env + 3600000000) Sample.env) Sample.db
          = (inr Sample.alice, Sample.db))
  /\ ~ expires_after_ttl 60000000
  /\ ~ expires_after_ttl 0.
Proof.
  destruct sample_alice_found as [Ho Hu].
  assert (H1 : forall t, timegm t <= timegm (now Sample.env + 60000000) ->
             get_current_user
               (JWS (SECRET_KEY Sample.env)
                  (<["exp" := VInt (timegm (now Sample.env + 60000000))]>
                     {["sub" := VStr Sample.alice_sub]}))
               (at_time t Sample.env) Sample.db
             = (inr Sample.alice, Sample.db)).
  { intros t Ht. by apply (signed_token_live _ _ _ _ _ (mkObjectId 1)). }
  assert (H0 : get_current_user
               (JWS (SECRET_KEY Sample.env)
                  (<["exp" := VInt (timegm (now Sample.env
                       + timedelta_minutes ACCESS_TOKEN_EXPIRE_MINUTES))]>
                     {["sub" := VStr Sample.alice_sub]}))
               (at_time (now Sample.env + 3600000000) Sample.env) Sample.db
             = (inr Sample.alice, Sample.db)).
  { apply (signed_token_live _ _ _ _ _ (mkObjectId 1)); [|done..].
    vm_compute. discriminate. }
  assert (C1 : create_access_token {["sub" := VStr Sample.alice_sub]}
                 (Some 60000000) Sample.env Sample.db
               = (inr (JWS (SECRET_KEY Sample.env)
                         (<["exp" := VInt (timegm (now Sample.env + 60000000))]>
                            {["sub" := VStr Sample.alice_sub]})), Sample.db)).
  { by rewrite create_access_token_supplied. }
  assert (C0 : create_access_token {["sub" := VStr Sample.alice_sub]}
                 (Some 0) Sample.env Sample.db
               = (inr (JWS (SECRET_KEY Sample.env)
                         (<["exp" := VInt (timegm (now Sample.env
                              + timedelta_minutes ACCESS_TOKEN_EXPIRE_MINUTES))]>
                            {["sub" := VStr Sample.alice_sub]})), Sample.db)).
  { apply create_access_token_default. by right. }
  split; [|split; [|split]].
  - eexists. split; [exact C1|]. split; apply H1; vm_compute; discriminate.
  - eexists. split; [exact C0|]. exact H0.
  - intros H.
    specialize (H Sample.env Sample.db _ _ (now Sample.env + 60000000) C1).
    rewrite H1 in H by (vm_compute; discriminate).
    assert (Hl := f_equal (fun x : (exn + document) * database =>
                             match x.1 with inr _ => true | inl _ => false end)
                    (H ltac:(lia))).
    discriminate Hl.
  - intros H.
    specialize (H Sample.env Sample.db _ _ (now Sample.env + 3600000000) C0).
    rewrite H0 in H.
    assert (Hl := f_equal (fun x : (exn + document) * database =>
                             match x.1 with inr _ => true | inl _ => false end)
                    (H ltac:(simpl; lia))).
    discriminate Hl.
Qed.

(** ** What the store keeps of a document *)

Lemma ms_le t : ms t <= t < ms t + 1000.
Proof.
  unfold ms. pose proof (Z.mod_pos_bound t 1000).
  pose proof (Z.div_mod t 1000). lia.
Qed.

Lemma ms_idem t : ms (ms t) = ms t.
Proof.
  unfold ms. rewrite (Z.mul_comm 1000 (t / 1000)), Z.div_mul by lia. lia.
Qed.

Lemma to_store_lookup_ne (d : document) k :
  k ≠ "created_at" -> k ≠ "updated_at" -> to_store d !! k = d !! k.
Proof.
  intros H1 H2. unfold to_store. by rewrite !lookup_alter_ne.
Qed.

Lemma to_store_lookup (d : document) k :
  to_store d !! k
  = if bool_decide (k = "created_at" \/ k = "updated_at")
    then bson_date <$> d !! k else d !! k.
Proof.
  case_bool_decide as Hk.
  - unfold to_store. destruct Hk as [-> | ->].
    + by rewrite lookup_alter_eq, lookup_alter_ne.
    + by rewrite lookup_alter_ne, lookup_alter_eq.
  - apply to_store_lookup_ne; tauto.
Qed.

Lemma to_store_insert_ne (d : document) k v :
  k ≠ "created_at" -> k ≠ "updated_at" ->
  to_store (<[k := v]> d) = <[k := v]> (to_store d).
Proof.
  intros H1 H2. unfold to_store. by rewrite !alter_insert_ne.
Qed.

(** A document stamped with two clock readings, as the handlers make
    them. *)
Lemma to_store_stamps t1 t2 :
  to_store (<["created_at" := VDatetime t1]>
              (<["updated_at" := VDatetime t2]> ∅))
  = <["created_at" := VDatetime (ms t1)]>
      (<["updated_at" := VDatetime (ms t2)]> ∅).
Proof.
  unfold to_store.
  by rewrite alter_insert_ne, alter_insert_eq, alter_insert_eq.
Qed.

Lemma to_store_updated_at t (d : document) :
  d !! "created_at" = None ->
  to_store (<["updated_at" := VDatetime t]> d)
  = <["updated_at" := VDatetime (ms t)]> d.
Proof.
  intros Hd. unfold to_store. rewrite alter_insert_eq.
  apply alter_id. intros x Hx. rewrite lookup_insert_ne in Hx by done.
  congruence.
Qed.

(** Push [to_store] through the fields of a document that a handler
    builds. *)
Ltac stored :=
  rewrite ?to_store_insert_ne by done; rewrite ?to_store_stamps.

(** ** Profile update *)

Lemma update_first_find p f (l : list document) d :
  List.find p l = Some d ->
  exists l1 l2, l = (l1 ++ d :: l2)%list
                /\ Forall (fun x => p x = false) l1
                /\ update_first p f l = Some (l1 ++ f d :: l2)%list.
Proof.
  induction l as [|x l IH]; simpl; [done|].
  destruct (p x) eqn:Hp.
  - intros [= ->]. exists [], l. simpl. auto.
  - intros Hf. destruct (IH Hf) as (l1 & l2 & -> & Hall & Hup).
    exists (x :: l1), l2. rewrite Hup. simpl. auto.
Qed.

(** C3: a profile update that supplies the empty string as company id is
    not answered with 'Invalid company id': the guard skips an empty
    value, [ObjectId("")] raises [InvalidId], and nothing catches it.  The
    store is left as it was. *)
Theorem update_profile_empty_company_id e db u country cafe_name full_name :
  update_profile
    (ProfileUpdateModel.mk country (Some "") cafe_name full_name) u e db
  = (inl (InvalidId ""), db)
  /\ ObjectId_is_valid "" = false.
Proof. split; reflexivity. Qed.

(** Any other malformed company id is refused with 'Invalid company id'
    before the store is touched. *)
Lemma update_profile_invalid_company_id e db u data cid :
  ProfileUpdateModel.company_id data = Some cid ->
  cid ≠ "" -> ObjectId_is_valid cid = false ->
  update_profile data u e db
  = (inl (HTTPException 400 "Invalid company id"), db).
Proof.
  intros Hc Hne Hinv. unfold update_profile. rewrite Hc. simpl.
  rewrite bool_decide_eq_false_2 by done. rewrite Hinv. reflexivity.
Qed.

(** A well-formed company id that names no company, or a company that is
    not approved, is refused with 'Company not approved'. *)
Lemma update_profile_not_approved e db u data cid o :
  ProfileUpdateModel.company_id data = Some cid ->
  ObjectId_of_str cid = Some o ->
  match List.find (matches [("_id", VOid o)]) (db_company db) with
  | Some c => truthy (get c "approved") = false
  | None => True
  end ->
  update_profile data u e db
  = (inl (HTTPException 400 "Company not approved"), db).
Proof.
  intros Hc Ho Hcomp. unfold update_profile. rewrite Hc.
  unfold ObjectId_is_valid, ObjectId_new. rewrite Ho, andb_false_r. run.
  destruct (List.find _ (db_company db)) as [c|] eqn:Hf; run;
    [|reflexivity].
  apply find_matches in Hf as [_ Hm]. apply matches_id in Hm.
  rewrite bool_decide_eq_false_2 by eauto using nonempty_lookup.
  rewrite Hcomp. reflexivity.
Qed.

Lemma set_if_lookup_ne k k' o (m : document) :
  k ≠ k' -> set_if k' o m !! k = m !! k.
Proof. intros H. destruct o; simpl; [by rewrite lookup_insert_ne|done]. Qed.

Lemma plain_updates_created_at data :
  set_if "full_name" (ProfileUpdateModel.full_name data)
    (set_if "cafe_name" (ProfileUpdateModel.cafe_name data)
       (set_if "country" (ProfileUpdateModel.country data) ∅))
  !! "created_at" = None.
Proof. by rewrite !set_if_lookup_ne. Qed.

(** With an approved company the update goes through: the stored user
    gets the supplied [company_id] and, as [updated_at], the current time
    in the store's milliseconds; the profile returned has the same
    [company_id] and the current time itself. *)
Lemma update_profile_assigns_company e db u data cid o c uid :
  ProfileUpdateModel.company_id data = Some cid ->
  ObjectId_of_str cid = Some o ->
  List.find (matches [("_id", VOid o)]) (db_company db) = Some c ->
  truthy (get c "approved") = true ->
  List.find (matches [("_id", uid)]) (db_user db) = Some u ->
  exists updates l1 l2 r,
    updates !! "company_id" = Some (VStr cid)
    /\ updates !! "updated_at" = Some (VDatetime (ms (now e)))
    /\ db_user db = (l1 ++ u :: l2)%list
    /\ update_profile data u e db
       = (inr (Some r),
          set_coll user (l1 ++ (updates ∪ u) :: l2)%list db)
    /\ r !! "company_id" = Some (VStr cid)
    /\ r !! "updated_at" = Some (VDatetime (now e)).
Proof.
  intros Hc Ho Hf Happ Hu. unfold update_profile. rewrite Hc.
  unfold ObjectId_is_valid, ObjectId_new. rewrite Ho, andb_false_r. run.
  rewrite Hf.
  pose proof Hf as Hm. apply find_matches in Hm as [_ Hm].
  apply matches_id in Hm.
  unfold truthy_doc. rewrite bool_decide_eq_false_2 by eauto using nonempty_lookup.
  rewrite Happ. run.
  set (upd0 := set_if "full_name" _ _).
  rewrite bool_decide_eq_false_2
    by (eapply nonempty_lookup; apply lookup_insert_eq).
  run.
  pose proof Hu as Hidu. apply find_matches in Hidu as [_ Hidu].
  apply matches_id in Hidu. rewrite Hidu. run.
  set (updates := <["updated_at" := VDatetime (now e)]>
                    (<["company_id" := VStr cid]> upd0)).
  assert (Hst : to_store updates
                = <["updated_at" := VDatetime (ms (now e))]>
                    (<["company_id" := VStr cid]> upd0)).
  { apply to_store_updated_at. rewrite lookup_insert_ne by done.
    apply plain_updates_created_at. }
  destruct (update_first_find (matches [("_id", uid)])
              (fun d => to_store updates ∪ d) _ _ Hu)
    as (l1 & l2 & Hl & _ & Hup).
  unfold update_one. simpl. rewrite Hup.
  assert (Hc1 : updates !! "company_id" = Some (VStr cid)).
  { unfold updates. rewrite lookup_insert_ne by done. apply lookup_insert_eq. }
  assert (Hc2 : updates !! "updated_at" = Some (VDatetime (now e)))
    by apply lookup_insert_eq.
  assert (Hid' : (updates ∪ u) !! "_id" = Some
                   (default uid (updates !! "_id"))).
  { rewrite lookup_union. destruct (updates !! "_id"); rewrite Hidu; done. }
  destruct (serialize_user_stored (updates ∪ u) _ e
              (set_coll user (l1 ++ (to_store updates ∪ u) :: l2)%list db) Hid')
    as (r & Hr & _ & _ & Hr1 & Hr2).
  exists (to_store updates), l1, l2, r. repeat split; try done.
  - rewrite Hst. rewrite lookup_insert_ne by done. apply lookup_insert_eq.
  - rewrite Hst. apply lookup_insert_eq.
  - rewrite Hr1. unfold get.
    by rewrite (lookup_union_Some_l _ _ _ _ Hc1).
  - rewrite Hr2. unfold get.
    by rewrite (lookup_union_Some_l _ _ _ _ Hc2).
Qed.

(** ** Company creation *)

Lemma with_current_user_ok {A} (handler : document -> M A) tok e db u :
  get_current_user tok e db = (inr u, db) ->
  with_current_user handler tok e db = handler u e db.
Proof. intros H. unfold with_current_user, bind. by rewrite H. Qed.

Lemma matches_two (d : document) k1 v1 k2 v2 :
  matches [(k1, v1); (k2, v2)] d = true
  <-> d !! k1 = Some v1 /\ d !! k2 = Some v2.
Proof.
  unfold matches; simpl.
  rewrite andb_true_r, andb_true_iff, !bool_decide_eq_true. done.
Qed.

Lemma find_exists q (l : list document) :
  (exists d, d ∈ l /\ matches q d = true)
  <-> exists d, List.find (matches q) l = Some d.
Proof.
  split.
  - intros (d & Hin & Hm).
    destruct (List.find (matches q) l) as [d'|] eqn:Hf; [eauto|].
    apply find_none_iff in Hf. rewrite Forall_forall in Hf.
    apply Hf in Hin. congruence.
  - intros (d & Hf). apply find_matches in Hf. eauto.
Qed.

Lemma to_store_company_doc data u id t oid :
  to_store (company_doc data u id t oid) = company_doc data u id (ms t) oid.
Proof. unfold company_doc. by stored. Qed.

Lemma create_company_run data (u : document) e db :
  create_company data u e db =
  match List.find
          (matches [("name", VStr (CompanyCreateModel.name data));
                    ("country", VStr (CompanyCreateModel.country data))])
          (db_company db) with
  | Some _ => (inl Conflict, db)
  | None =>
      match u !! "_id" with
      | None => (inl (KeyError "_id"), db)
      | Some id =>
          let oid := mkObjectId (next_oid db) in
          (inr (company_doc data u id (now e) oid
                ∪ {["_id" := VStr (py_str (VOid oid))]}),
           mkDb (db_user db)
             (db_company db ++ [company_doc data u id (ms (now e)) oid])
             (db_pendingcompanyrequest db) (db_foodrank db)
             (N.succ (next_oid db)))
      end
  end.
Proof.
  unfold create_company. run.
  destruct (List.find _ _) as [c|] eqn:Hf; run.
  - apply find_matches in Hf as [_ Hm]. apply matches_two in Hm as [Hm _].
    by rewrite bool_decide_eq_false_2 by eauto using nonempty_lookup.
  - destruct (u !! "_id") as [id|]; [|reflexivity].
    cbv zeta. rewrite <- to_store_company_doc. reflexivity.
Qed.

(** C4: a company creation by a resolved user fails with 'Company already
    exists' exactly when a company with the same name and country is
    stored; otherwise it succeeds, adds one company and nothing else, and
    the new company's [approved] is the truth value of the creator's
    [is_admin]. *)
Theorem create_company_conflict_iff e db tok u data :
  get_current_user tok e db = (inr u, db) ->
  (company_exists data db <->
   with_current_user (create_company data) tok e db = (inl Conflict, db))
  /\ (~ company_exists data db ->
      exists r doc db',
        with_current_user (create_company data) tok e db = (inr r, db')
        /\ db_company db' = (db_company db ++ [doc])%list
        /\ db_user db' = db_user db
        /\ db_pendingcompanyrequest db' = db_pendingcompanyrequest db
        /\ db_foodrank db' = db_foodrank db
        /\ doc !! "name" = Some (VStr (CompanyCreateModel.name data))
        /\ doc !! "country" = Some (VStr (CompanyCreateModel.country data))
        /\ doc !! "approved" = Some (VBool (truthy (get u "is_admin")))
        /\ (forall b, u !! "is_admin" = Some (VBool b) ->
                      doc !! "approved" = Some (VBool b))).
Proof.
  intros Hauth. rewrite (with_current_user_ok _ _ _ _ _ Hauth).
  apply get_current_user_ok in Hauth as (_ & _ & o & Hid).
  set (q := [("name", VStr (CompanyCreateModel.name data));
             ("country", VStr (CompanyCreateModel.country data))]).
  assert (Hex : company_exists data db
                <-> exists d, List.find (matches q) (db_company db) = Some d).
  { rewrite <- find_exists. unfold company_exists.
    split; intros (c & Hin & H); exists c; (split; [done|]);
      by apply matches_two. }
  rewrite create_company_run. fold q. rewrite Hid. cbv zeta. split.
  - rewrite Hex. split.
    + by intros [d ->].
    + destruct (List.find _ _); [eauto|]. intros [=].
  - intros Hno. destruct (List.find _ _) as [c|] eqn:Hf.
    { exfalso. apply Hno, Hex. eauto. }
    eexists _, _, _. split; [reflexivity|]. cbn [db_company db_user
      db_pendingcompanyrequest db_foodrank]. unfold company_doc.
    repeat split; try by simplify_map_eq.
    intros b Hb. unfold get. rewrite Hb. by simplify_map_eq.
Qed.

(** ** Rank creation *)

Lemma to_store_rank_of data u id t oid :
  to_store (rank_of data u id t oid) = rank_of data u id (ms t) oid.
Proof. unfold rank_of. by stored. Qed.

Lemma create_rank_run data (u : document) id e db :
  u !! "_id" = Some id ->
  create_rank data u e db =
  if negb (truthy (get u "company_id")) then (inl NoCompanyAssigned, db)
  else if (RankCreateModel.rating data <? 1)
          || (RankCreateModel.rating data >? 5)
  then (inl InvalidRating, db)
  else
    let oid := mkObjectId (next_oid db) in
    (inr (rank_of data u id (now e) oid
          ∪ {["_id" := VStr (py_str (VOid oid))]}),
     mkDb (db_user db) (db_company db) (db_pendingcompanyrequest db)
       (db_foodrank db ++ [rank_of data u id (ms (now e)) oid])
       (N.succ (next_oid db))).
Proof.
  intros Hid. unfold create_rank.
  destruct (negb (truthy (get u "company_id"))); [reflexivity|].
  destruct (_ || _); [reflexivity|].
  run. rewrite Hid. cbv zeta. rewrite <- to_store_rank_of. reflexivity.
Qed.

(** C7: a rank creation by a resolved user whose [company_id] is empty
    (absent, [None] or the empty string) fails with 'User has no company
    assigned' and the store after the request is the store before it. *)
Theorem create_rank_no_company e db tok u data :
  get_current_user tok e db = (inr u, db) ->
  truthy (get u "company_id") = false ->
  with_current_user (create_rank data) tok e db = (inl NoCompanyAssigned, db).
Proof.
  intros Hauth Hc. rewrite (with_current_user_ok _ _ _ _ _ Hauth).
  unfold create_rank. rewrite Hc. reflexivity.
Qed.

(** C8: for a resolved user with a company, a rating below 1 or above 5
    (0 and 6 among them) fails with 'Rating must be 1-5' and leaves the
    store alone, and every rating from 1 to 5, both ends included, is
    accepted and stored. *)
Theorem create_rank_rating_bounds e db tok u data :
  get_current_user tok e db = (inr u, db) ->
  truthy (get u "company_id") = true ->
  (RankCreateModel.rating data < 1 \/ 5 < RankCreateModel.rating data ->
   with_current_user (create_rank data) tok e db = (inl InvalidRating, db))
  /\ (1 <= RankCreateModel.rating data <= 5 ->
      exists r doc db',
        with_current_user (create_rank data) tok e db = (inr r, db')
        /\ db_foodrank db' = (db_foodrank db ++ [doc])%list
        /\ doc !! "rating" = Some (VInt (RankCreateModel.rating data))).
Proof.
  intros Hauth Hc. rewrite (with_current_user_ok _ _ _ _ _ Hauth).
  apply get_current_user_ok in Hauth as (_ & _ & o & Hid).
  rewrite (create_rank_run _ _ _ _ _ Hid), Hc. simpl. split.
  - intros Hr.
    replace (_ || _) with true; [reflexivity|].
    symmetry. apply orb_true_iff. rewrite Z.ltb_lt, Z.gtb_ltb, Z.ltb_lt. lia.
  - intros Hr.
    replace (_ || _) with false.
    + eexists _, _, _. split; [reflexivity|]. split; [reflexivity|].
      unfold rank_of. by simplify_map_eq.
    + symmetry. apply orb_false_iff.
      rewrite Z.ltb_ge, Z.gtb_ltb, Z.ltb_ge. lia.
Qed.

Lemma update_profile_keeps_ranks data u e db :
  db_foodrank (update_profile data u e db).2 = db_foodrank db.
Proof.
  unfold update_profile.
  set (upd0 := set_if "full_name" _ _).
  destruct (ProfileUpdateModel.company_id data) as [cid|]; run.
  - destruct (_ && _); [reflexivity|]. run.
    unfold ObjectId_new. destruct (ObjectId_of_str cid); run; [|reflexivity].
    destruct (truthy_doc _) as [c|]; [|reflexivity].
    destruct (negb _); [reflexivity|]. run.
    rewrite bool_decide_eq_false_2
      by (eapply nonempty_lookup; apply lookup_insert_eq).
    run. destruct (u !! "_id"); run; [|reflexivity].
    unfold update_one. destruct (update_first _ _ _); run.
    + unfold serialize_user.
      case_bool_decide; run; [reflexivity|].
      by destruct (_ !! "_id").
    + unfold serialize_user.
      case_bool_decide; run; [reflexivity|].
      by destruct (_ !! "_id").
  - unfold serialize_user at 1.
    case_bool_decide as Hemp; run.
    + case_bool_decide; run; [reflexivity|]. by destruct (u !! "_id").
    + destruct (u !! "_id"); run; [|reflexivity].
      unfold update_one. destruct (update_first _ _ _); run.
      * unfold serialize_user.
        case_bool_decide; run; [reflexivity|].
        by destruct (_ !! "_id").
      * unfold serialize_user.
        case_bool_decide; run; [reflexivity|].
        by destruct (_ !! "_id").
Qed.

(** C9, as amended: the rank stored by a successful creation carries the
    user's [company_id] and [country] as they are at that time, and the
    user's [cafe_name] when that is set and not empty, the empty string
    otherwise; the stored rank is a copy, which a later profile update
    does not touch. *)
Theorem create_rank_snapshot e db tok u data r db' :
  get_current_user tok e db = (inr u, db) ->
  with_current_user (create_rank data) tok e db = (inr r, db') ->
  exists doc,
    db_foodrank db' = (db_foodrank db ++ [doc])%list
    /\ doc !! "company_id" = Some (get u "company_id")
    /\ doc !! "country" = Some (get u "country")
    /\ doc !! "cafe_name"
       = Some (if truthy (get u "cafe_name") then get u "cafe_name"
               else VStr "")
    /\ (forall data' u' e',
          db_foodrank (update_profile data' u' e' db').2
          = (db_foodrank db ++ [doc])%list).
Proof.
  intros Hauth. rewrite (with_current_user_ok _ _ _ _ _ Hauth).
  apply get_current_user_ok in Hauth as (_ & _ & o & Hid).
  rewrite (create_rank_run _ _ _ _ _ Hid).
  destruct (negb _); [intros [=]|].
  destruct (_ || _); [intros [=]|].
  intros [= <- <-]. eexists. split; [reflexivity|].
  repeat split; try (unfold rank_of; by simplify_map_eq).
  intros data' u' e'. by rewrite update_profile_keeps_ranks.
Qed.

Lemma sample_bob_resolved :
  get_current_user SampleRank.bob_token Sample.env SampleRank.db
  = (inr SampleRank.bob, SampleRank.db).
Proof. reflexivity. Qed.

Lemma sample_bob_lunch :
  with_current_user (create_rank SampleRank.lunch) SampleRank.bob_token
    Sample.env SampleRank.db
  = (inr (rank_of SampleRank.lunch SampleRank.bob (VOid (mkObjectId 3))
            (now Sample.env) (mkObjectId 16)
          ∪ {["_id" := VStr (py_str (VOid (mkObjectId 16)))]}),
     mkDb (db_user SampleRank.db) (db_company SampleRank.db)
       (db_pendingcompanyrequest SampleRank.db)
       (db_foodrank SampleRank.db
        ++ [rank_of SampleRank.lunch SampleRank.bob (VOid (mkObjectId 3))
              (ms (now Sample.env)) (mkObjectId 16)])
       17).
Proof.
  rewrite (with_current_user_ok _ _ _ _ _ sample_bob_resolved).
  rewrite (create_rank_run _ _ (VOid (mkObjectId 3))) by reflexivity.
  reflexivity.
Qed.

Lemma create_rank_snapshot_witness :
  get_current_user SampleRank.bob_token Sample.env SampleRank.db
  = (inr SampleRank.bob, SampleRank.db)
  /\ exists doc,
    db_foodrank
      (with_current_user (create_rank SampleRank.lunch) SampleRank.bob_token
         Sample.env SampleRank.db).2
    = (db_foodrank SampleRank.db ++ [doc])%list
    /\ doc !! "company_id" = Some (get SampleRank.bob "company_id")
    /\ doc !! "country" = Some (get SampleRank.bob "country")
    /\ doc !! "cafe_name"
       = Some (if truthy (get SampleRank.bob "cafe_name")
               then get SampleRank.bob "cafe_name" else VStr "")
    /\ (forall data' u' e',
          db_foodrank
            (update_profile data' u' e'
               (with_current_user (create_rank SampleRank.lunch)
                  SampleRank.bob_token Sample.env SampleRank.db).2).2
          = (db_foodrank SampleRank.db ++ [doc])%list).
Proof.
  split; [exact sample_bob_resolved|].
  rewrite sample_bob_lunch. cbn [snd].
  exact (create_rank_snapshot Sample.env SampleRank.db SampleRank.bob_token
           SampleRank.bob SampleRank.lunch _ _ sample_bob_resolved
           sample_bob_lunch).
Defined.

(** C9 as stated fails for a user without a cafe name: the profile says
    [None], the stored rank says the empty string. *)
Lemma rank_cafe_name_differs :
  (exists r db' doc,
     with_current_user (create_rank SampleRank.lunch) SampleRank.bob_token
       Sample.env SampleRank.db = (inr r, db')
     /\ last (db_foodrank db') = Some doc
     /\ doc !! "cafe_name" = Some (VStr "")
     /\ get SampleRank.bob "cafe_name" = VNone)
  /\ ~ rank_copies_profile.
Proof.
  split.
  - eexists _, _, _. split; [exact sample_bob_lunch|].
    split; [reflexivity|]. split; reflexivity.
  - intros H.
    destruct (H Sample.env SampleRank.db SampleRank.bob_token SampleRank.bob
                SampleRank.lunch _ _
                (rank_of SampleRank.lunch SampleRank.bob
                   (VOid (mkObjectId 3)) (ms (now Sample.env)) (mkObjectId 16))
                sample_bob_resolved sample_bob_lunch eq_refl)
      as (_ & _ & Hcafe).
    vm_compute in Hcafe. discriminate Hcafe.
Qed.

(** ** Registration *)

Lemma register_run payload c e db :
  List.find (matches [("email", VStr (RegisterModel.email payload))])
    (db_user db) = None ->
  RegisterModel.company payload = Some c -> c ≠ "" ->
  register payload e db =
  match lookup_company c db with
  | Some d =>
      match d !! "_id" with
      | Some id =>
          let oid := mkObjectId (next_oid db) in
          (inr (token_for e oid),
           mkDb (db_user db ++ [user_doc_of payload (str_if_oid id) e oid])
             (db_company db) (db_pendingcompanyrequest db) (db_foodrank db)
             (N.succ (next_oid db)))
      | None => (inl (KeyError "_id"), db)
      end
  | None =>
      let oid := mkObjectId (next_oid db) in
      let oid' := mkObjectId (N.succ (next_oid db)) in
      (inr (token_for e oid'),
       mkDb (db_user db ++ [user_doc_of payload VNone e oid'])
         (db_company db)
         (db_pendingcompanyrequest db
            ++ [pending_of c (RegisterModel.country payload) e oid])
         (db_foodrank db) (N.succ (N.succ (next_oid db))))
  end.
Proof.
  intros Hemail Hc Hne. unfold register, get_user_by_email. run.
  rewrite Hemail. run. rewrite Hc. simpl.
  rewrite bool_decide_eq_false_2 by done. simpl.
  unfold lookup_company, ObjectId_is_valid, ObjectId_new.
  assert (Htail : forall (comp : option document),
    (comp = None \/ exists d, comp = Some d /\ d ≠ ∅) ->
    truthy_doc comp = comp).
  { intros comp [->|(d & -> & Hd)]; [done|].
    simpl. by rewrite bool_decide_eq_false_2. }
  assert (Hfound : forall q d, q ≠ [] ->
            List.find (matches q) (db_company db) = Some d -> d ≠ ∅).
  { intros q d Hq Hf. apply (truthy_doc_matches q d _ Hq) in Hf.
    simpl in Hf. case_bool_decide; [done|done]. }
  destruct (ObjectId_of_str c) as [o|] eqn:Ho; run.
  - destruct (List.find (matches [("_id", VOid o)]) (db_company db))
      as [d|] eqn:Hid; run.
    + assert (d ≠ ∅) by (eapply Hfound; [|exact Hid]; done).
      rewrite bool_decide_eq_false_2 by done.
      run. rewrite ?bool_decide_eq_false_2 by done. run.
      destruct (d !! "_id"); [|reflexivity]. run. stored. reflexivity.
    + destruct (List.find (matches [("name", VStr c)]) (db_company db))
        as [d|] eqn:Hname; run.
      * assert (d ≠ ∅) by (eapply Hfound; [|exact Hname]; done).
        rewrite bool_decide_eq_false_2 by done. run.
        destruct (d !! "_id"); [|reflexivity]. run. stored. reflexivity.
      * stored. reflexivity.
  - destruct (List.find (matches [("name", VStr c)]) (db_company db))
      as [d|] eqn:Hname; run.
    + assert (d ≠ ∅) by (eapply Hfound; [|exact Hname]; done).
      rewrite bool_decide_eq_false_2 by done. run.
      destruct (d !! "_id"); [|reflexivity]. run. stored. reflexivity.
    + stored. reflexivity.
Qed.

Lemma matches_one (d : document) k v :
  matches [(k, v)] d = true <-> d !! k = Some v.
Proof.
  unfold matches; simpl. rewrite andb_true_r. apply bool_decide_eq_true.
Qed.

Lemma find_none_field k v (l : list document) :
  Forall (fun d => d !! k ≠ Some v) l ->
  List.find (matches [(k, v)]) l = None.
Proof.
  intros H. apply find_none_iff. eapply Forall_impl; [exact H|].
  intros d Hd; simpl in Hd. destruct (matches _ d) eqn:Hm; [|done].
  by apply matches_one in Hm.
Qed.

Lemma find_email_none email db :
  List.find (matches [("email", VStr email)]) (db_user db) = None
  <-> email_free email db.
Proof.
  split; [|apply find_none_field].
  intros H. apply find_none_iff in H. unfold email_free.
  eapply Forall_impl; [exact H|]. intros d Hd Hem. cbv beta in Hd.
  apply (proj2 (matches_one d "email" (VStr email))) in Hem. congruence.
Qed.

Lemma register_taken payload e db d :
  List.find (matches [("email", VStr (RegisterModel.email payload))])
    (db_user db) = Some d ->
  register payload e db
  = (inl (HTTPException 400 "Email already registered"), db).
Proof.
  intros Hf. unfold register, get_user_by_email. run. rewrite Hf.
  apply find_matches in Hf as [_ Hm]. apply matches_one in Hm.
  unfold truthy_doc.
  by rewrite bool_decide_eq_false_2 by eauto using nonempty_lookup.
Qed.

Lemma register_run_none payload e db :
  List.find (matches [("email", VStr (RegisterModel.email payload))])
    (db_user db) = None ->
  RegisterModel.company payload = None
  \/ RegisterModel.company payload = Some "" ->
  register payload e db
  = (inr (token_for e (mkObjectId (next_oid db))),
     mkDb (db_user db
           ++ [user_doc_of payload VNone e (mkObjectId (next_oid db))])
       (db_company db) (db_pendingcompanyrequest db) (db_foodrank db)
       (N.succ (next_oid db))).
Proof.
  intros Hemail Hc. unfold register, get_user_by_email. run.
  rewrite Hemail. run. destruct Hc as [-> | ->]; run; stored; reflexivity.
Qed.

Lemma lookup_company_Some c db d :
  lookup_company c db = Some d -> d ∈ db_company db /\ names_company c d.
Proof.
  unfold lookup_company, names_company.
  destruct (ObjectId_of_str c) as [o|] eqn:Ho.
  - destruct (List.find (matches [("_id", VOid o)]) _) as [d'|] eqn:Hid.
    + intros [= ->]. apply find_matches in Hid as [Hin Hm].
      apply matches_one in Hm. eauto.
    + intros Hn. apply find_matches in Hn as [Hin Hm].
      apply matches_one in Hm. eauto.
  - intros Hn. apply find_matches in Hn as [Hin Hm].
    apply matches_one in Hm. eauto.
Qed.

Lemma lookup_company_None c db :
  lookup_company c db = None ->
  forall d, d ∈ db_company db -> ~ names_company c d.
Proof.
  unfold lookup_company, names_company. intros Hl d Hin Hd.
  assert (Hname : d !! "name" = Some (VStr c) ->
                  List.find (matches [("name", VStr c)]) (db_company db)
                  ≠ None).
  { intros Hn Hf. apply find_none_iff in Hf. rewrite Forall_forall in Hf.
    apply Hf in Hin. apply matches_one in Hn. congruence. }
  destruct Hd as [(o & Ho & Hid)|Hn].
  - rewrite Ho in Hl.
    destruct (List.find (matches [("_id", VOid o)]) _) eqn:Hf; [done|].
    apply find_none_iff in Hf. rewrite Forall_forall in Hf.
    apply Hf in Hin. apply matches_one in Hid. congruence.
  - destruct (ObjectId_of_str c); [|by apply Hname].
    destruct (List.find (matches [("_id", _)]) _); [done|by apply Hname].
Qed.

(** C5, as amended: a registration with a new email whose company
    reference is not empty and matches a stored company, by id or by exact
    name, succeeds and stores one new user whose [company_id] is the id of
    a company the reference matches (the one with that id when there is
    one, else the first with that name), whatever the company's
    [approved]; no pending request is written. *)
Theorem register_links_company e db payload c :
  email_free (RegisterModel.email payload) db ->
  RegisterModel.company payload = Some c ->
  c ≠ "" ->
  Forall (fun d => is_Some (d !! "_id")) (db_company db) ->
  (exists d, d ∈ db_company db /\ names_company c d) ->
  exists tok db' d id u,
    register payload e db = (inr tok, db')
    /\ d ∈ db_company db /\ names_company c d /\ d !! "_id" = Some id
    /\ db_user db' = (db_user db ++ [u])%list
    /\ u !! "company_id" = Some (str_if_oid id)
    /\ db_company db' = db_company db
    /\ db_pendingcompanyrequest db' = db_pendingcompanyrequest db.
Proof.
  intros Hemail Hc Hne Hids (d0 & Hin0 & Hn0).
  rewrite (register_run payload c e db) by (by try apply find_none_field).
  destruct (lookup_company c db) as [d|] eqn:Hl.
  - destruct (lookup_company_Some _ _ _ Hl) as [Hin Hn].
    rewrite Forall_forall in Hids.
    destruct (Hids d Hin) as [id Hid]. rewrite Hid.
    eexists _, _, d, id, _. split; [reflexivity|]. simpl.
    repeat split; done.
  - exfalso. by eapply lookup_company_None.
Qed.

(** C6, as amended: a registration with a new email whose company
    reference is not empty and matches no stored company, by id or by
    name, succeeds; it adds exactly one pending request, which carries the
    reference as name, the registrant's country, [approved] false and no
    requester, and one new user whose [company_id] is [None]; companies
    and ranks are untouched.  Stored pending requests play no part. *)
Theorem register_requests_company e db payload c :
  email_free (RegisterModel.email payload) db ->
  RegisterModel.company payload = Some c ->
  c ≠ "" ->
  (forall d, d ∈ db_company db -> ~ names_company c d) ->
  exists tok db' req u,
    register payload e db = (inr tok, db')
    /\ db_pendingcompanyrequest db'
       = (db_pendingcompanyrequest db ++ [req])%list
    /\ req !! "name" = Some (VStr c)
    /\ req !! "country" = Some (VStr (RegisterModel.country payload))
    /\ req !! "approved" = Some (VBool false)
    /\ req !! "requested_by" = Some VNone
    /\ db_user db' = (db_user db ++ [u])%list
    /\ u !! "company_id" = Some VNone
    /\ db_company db' = db_company db
    /\ db_foodrank db' = db_foodrank db.
Proof.
  intros Hemail Hc Hne Hnone.
  rewrite (register_run payload c e db) by (by try apply find_none_field).
  destruct (lookup_company c db) as [d|] eqn:Hl.
  - exfalso. destruct (lookup_company_Some _ _ _ Hl) as [Hin Hn].
    by apply (Hnone d).
  - eexists _, _, _, _. split; [reflexivity|]. simpl.
    repeat split; done.
Qed.

Lemma sample_email_free :
  email_free "carol@example.com" Sample.db.
Proof. repeat constructor. discriminate. Qed.

Lemma sample_companies_have_ids :
  Forall (fun d : document => is_Some (d !! "_id")) (db_company Sample.db).
Proof. repeat constructor; eexists; reflexivity. Qed.

Lemma sample_no_initech d :
  d ∈ db_company Sample.db -> ~ names_company "Initech" d.
Proof.
  intros Hd. simpl in Hd. apply elem_of_cons in Hd as [->|Hd];
    [|by apply elem_of_nil in Hd].
  intros [(o & Ho & _)|Hname]; [vm_compute in Ho|vm_compute in Hname];
    discriminate.
Qed.

Lemma sample_no_empty_name d :
  d ∈ db_company Sample.db -> ~ names_company "" d.
Proof.
  intros Hd. simpl in Hd. apply elem_of_cons in Hd as [->|Hd];
    [|by apply elem_of_nil in Hd].
  intros [(o & Ho & _)|Hname]; [vm_compute in Ho|vm_compute in Hname];
    discriminate.
Qed.

Lemma sample_carol_no_company db :
  email_free "carol@example.com" db ->
  register (SampleReg.carol (Some "")) Sample.env db
  = (inr (token_for Sample.env (mkObjectId (next_oid db))),
     mkDb (db_user db
           ++ [user_doc_of (SampleReg.carol (Some "")) VNone Sample.env
                 (mkObjectId (next_oid db))])
       (db_company db) (db_pendingcompanyrequest db) (db_foodrank db)
       (N.succ (next_oid db))).
Proof.
  intros Hfree. apply register_run_none; [|by right].
  by apply find_email_none.
Qed.

Lemma register_links_company_witness :
  email_free (RegisterModel.email (SampleReg.carol (Some "Acme"))) Sample.db
  /\ exists tok db' d id u,
    register (SampleReg.carol (Some "Acme")) Sample.env Sample.db
    = (inr tok, db')
    /\ d ∈ db_company Sample.db /\ names_company "Acme" d
    /\ d !! "_id" = Some id
    /\ db_user db' = (db_user Sample.db ++ [u])%list
    /\ u !! "company_id" = Some (str_if_oid id)
    /\ db_company db' = db_company Sample.db
    /\ db_pendingcompanyrequest db' = db_pendingcompanyrequest Sample.db.
Proof.
  split; [exact sample_email_free|].
  apply (register_links_company Sample.env Sample.db
           (SampleReg.carol (Some "Acme")) "Acme").
  - exact sample_email_free.
  - reflexivity.
  - discriminate.
  - exact sample_companies_have_ids.
  - exists Sample.acme. split; [apply list_elem_of_here|].
    right. reflexivity.
Defined.

(** C5 as stated fails for the empty reference: it is the exact name of a
    stored company, yet [if payload.company:] takes it for no reference
    and the new user gets no company. *)
Lemma register_empty_reference_unlinked :
  (exists tok db' u,
     register (SampleReg.carol (Some "")) Sample.env SampleReg.db
     = (inr tok, db')
     /\ SampleReg.nameless ∈ db_company SampleReg.db
     /\ names_company "" SampleReg.nameless
     /\ last (db_user db') = Some u
     /\ u !! "company_id" = Some VNone)
  /\ ~ registration_links_company.
Proof.
  assert (Hin : SampleReg.nameless ∈ db_company SampleReg.db)
    by (apply list_elem_of_further, list_elem_of_here).
  assert (Hn : names_company "" SampleReg.nameless) by (right; reflexivity).
  assert (Hfree : email_free "carol@example.com" SampleReg.db)
    by (repeat constructor; discriminate).
  pose proof (sample_carol_no_company SampleReg.db Hfree) as Hrun.
  split.
  - eexists _, _, _. split; [exact Hrun|].
    split; [done|]. split; [done|]. split; [apply last_snoc|reflexivity].
  - intros H.
    destruct (H Sample.env SampleReg.db (SampleReg.carol (Some "")) ""
                _ _ eq_refl (ex_intro _ _ (conj Hin Hn)) Hrun)
      as (d & id & u & Hd & _ & Hid & Hlast & Hcid).
    cbn [db_user] in Hlast. rewrite last_snoc in Hlast.
    injection Hlast as Hu. rewrite <- Hu in Hcid.
    simpl in Hd. apply elem_of_cons in Hd as [->|Hd];
      [|apply elem_of_cons in Hd as [->|Hd];
        [|by apply elem_of_nil in Hd]];
      vm_compute in Hid; injection Hid as <-;
      vm_compute in Hcid; discriminate Hcid.
Qed.

Lemma register_requests_company_witness :
  email_free (RegisterModel.email (SampleReg.carol (Some "Initech")))
    Sample.db
  /\ exists tok db' req u,
    register (SampleReg.carol (Some "Initech")) Sample.env Sample.db
    = (inr tok, db')
    /\ db_pendingcompanyrequest db'
       = (db_pendingcompanyrequest Sample.db ++ [req])%list
    /\ req !! "name" = Some (VStr "Initech")
    /\ req !! "country"
       = Some (VStr (RegisterModel.country (SampleReg.carol (Some "Initech"))))
    /\ req !! "approved" = Some (VBool false)
    /\ req !! "requested_by" = Some VNone
    /\ db_user db' = (db_user Sample.db ++ [u])%list
    /\ u !! "company_id" = Some VNone
    /\ db_company db' = db_company Sample.db
    /\ db_foodrank db' = db_foodrank Sample.db.
Proof.
  split; [exact sample_email_free|].
  apply (register_requests_company Sample.env Sample.db
           (SampleReg.carol (Some "Initech")) "Initech").
  - exact sample_email_free.
  - reflexivity.
  - discriminate.
  - exact sample_no_initech.
Defined.

(** C6 as stated fails twice over: with the empty reference, which
    matches nothing here, no pending request is written; and with an email
    that is already registered the registration fails, whatever the
    reference. *)
Lemma register_no_request_written :
  (exists tok db',
     register (SampleReg.carol (Some "")) Sample.env Sample.db
     = (inr tok, db')
     /\ db_pendingcompanyrequest db' = db_pendingcompanyrequest Sample.db)
  /\ register SampleReg.alice_again Sample.env Sample.db
     = (inl (HTTPException 400 "Email already registered"), Sample.db)
  /\ ~ registration_requests_company.
Proof.
  pose proof (sample_carol_no_company Sample.db sample_email_free) as Hrun.
  split; [|split].
  - eexists _, _. split; [exact Hrun|]. reflexivity.
  - by apply (register_taken _ _ _ Sample.alice).
  - intros H.
    destruct (H Sample.env Sample.db (SampleReg.carol (Some "")) "" eq_refl)
      as (tok & db' & req & u & Hrun' & Hpend & _).
    + exact sample_no_empty_name.
    + constructor.
    + rewrite Hrun in Hrun'.
      assert (Hdb := f_equal (fun x : (exn + token) * database =>
                                length (db_pendingcompanyrequest x.2)) Hrun').
      cbn [snd db_pendingcompanyrequest] in Hdb. rewrite Hpend in Hdb.
      rewrite length_app in Hdb. simpl in Hdb. lia.
Qed.

(** ** Instances on the sample data *)

Lemma sample_alice_resolved :
  get_current_user SampleReg.alice_token Sample.env Sample.db
  = (inr Sample.alice, Sample.db).
Proof. reflexivity. Qed.

Lemma create_company_conflict_iff_witness :
  get_current_user SampleReg.alice_token Sample.env Sample.db
  = (inr Sample.alice, Sample.db)
  /\ (company_exists SampleReg.acme_request Sample.db <->
      with_current_user (create_company SampleReg.acme_request)
        SampleReg.alice_token Sample.env Sample.db
      = (inl Conflict, Sample.db))
  /\ (~ company_exists SampleReg.acme_request Sample.db ->
      exists r doc db',
        with_current_user (create_company SampleReg.acme_request)
          SampleReg.alice_token Sample.env Sample.db = (inr r, db')
        /\ db_company db' = (db_company Sample.db ++ [doc])%list
        /\ db_user db' = db_user Sample.db
        /\ db_pendingcompanyrequest db' = db_pendingcompanyrequest Sample.db
        /\ db_foodrank db' = db_foodrank Sample.db
        /\ doc !! "name"
           = Some (VStr (CompanyCreateModel.name SampleReg.acme_request))
        /\ doc !! "country"
           = Some (VStr (CompanyCreateModel.country SampleReg.acme_request))
        /\ doc !! "approved"
           = Some (VBool (truthy (get Sample.alice "is_admin")))
        /\ (forall b, Sample.alice !! "is_admin" = Some (VBool b) ->
                      doc !! "approved" = Some (VBool b))).
Proof.
  split; [exact sample_alice_resolved|].
  exact (create_company_conflict_iff Sample.env Sample.db
           SampleReg.alice_token Sample.alice SampleReg.acme_request
           sample_alice_resolved).
Defined.

Lemma create_rank_no_company_witness :
  get_current_user SampleReg.alice_token Sample.env Sample.db
  = (inr Sample.alice, Sample.db)
  /\ truthy (get Sample.alice "company_id") = false
  /\ with_current_user (create_rank SampleRank.lunch) SampleReg.alice_token
       Sample.env Sample.db
     = (inl NoCompanyAssigned, Sample.db).
Proof.
  split; [exact sample_alice_resolved|]. split; [reflexivity|].
  apply (create_rank_no_company Sample.env Sample.db SampleReg.alice_token
           Sample.alice SampleRank.lunch).
  - exact sample_alice_resolved.
  - reflexivity.
Defined.

Lemma create_rank_rating_bounds_witness :
  get_current_user SampleRank.bob_token Sample.env SampleRank.db
  = (inr SampleRank.bob, SampleRank.db)
  /\ truthy (get SampleRank.bob "company_id") = true
  /\ (RankCreateModel.rating SampleRank.lunch < 1
      \/ 5 < RankCreateModel.rating SampleRank.lunch ->
      with_current_user (create_rank SampleRank.lunch) SampleRank.bob_token
        Sample.env SampleRank.db = (inl InvalidRating, SampleRank.db))
  /\ (1 <= RankCreateModel.rating SampleRank.lunch <= 5 ->
      exists r doc db',
        with_current_user (create_rank SampleRank.lunch) SampleRank.bob_token
          Sample.env SampleRank.db = (inr r, db')
        /\ db_foodrank db' = (db_foodrank SampleRank.db ++ [doc])%list
        /\ doc !! "rating"
           = Some (VInt (RankCreateModel.rating SampleRank.lunch))).
Proof.
  split; [exact sample_bob_resolved|]. split; [reflexivity|].
  apply (create_rank_rating_bounds Sample.env SampleRank.db
           SampleRank.bob_token SampleRank.bob SampleRank.lunch).
  - exact sample_bob_resolved.
  - reflexivity.
Defined.

(** The four ratings section 8 names: 0 and 6 are refused, 1 and 5 are
    stored. *)
Example create_rank_boundary_ratings :
  let post r :=
    (with_current_user
       (create_rank (RankCreateModel.mk (mkDate 2025 11 4) "Soup" r None None))
       SampleRank.bob_token Sample.env SampleRank.db) in
  (post 0).1 = inl InvalidRating
  /\ (post 6).1 = inl InvalidRating
  /\ length (db_foodrank (post 0).2) = 0%nat
  /\ length (db_foodrank (post 1).2) = 1%nat
  /\ length (db_foodrank (post 5).2) = 1%nat.
Proof.
  intros post. unfold post.
  rewrite !(with_current_user_ok _ _ _ _ _ sample_bob_resolved).
  rewrite !(create_rank_run _ _ (VOid (mkObjectId 3))) by reflexivity.
  repeat split; reflexivity.
Qed.

(** * Further properties of the routes *)

(** ** ObjectId text *)

Lemma hex_digit_char d :
  (d < 16)%N ->
  hex_digit (hex_char d) = Some d /\ is_space (hex_char d) = false.
Proof.
  intros H.
  assert (Hall : forallb (fun n => bool_decide
                            (hex_digit (hex_char n) = Some n
                             /\ is_space (hex_char n) = false))
                   (List.map N.of_nat (seq 0 16)) = true) by reflexivity.
  rewrite forallb_forall in Hall.
  eapply bool_decide_eq_true_1, Hall, in_map_iff.
  exists (N.to_nat d). split; [apply N2Nat.id|].
  apply in_seq. lia.
Qed.

Lemma fromhex_to_hex k n s len acc :
  fromhex (to_hex (2 * k) n s) len acc
  = fromhex s (k + len)
      (acc * 256 ^ N.of_nat k + n mod 256 ^ N.of_nat k)%N.
Proof.
  revert n s. induction k as [|k IH]; intros n s.
  - simpl. rewrite N.mod_1_r. f_equal. lia.
  - replace (2 * S k)%nat with (S (S (2 * k))) by lia.
    cbn [to_hex]. rewrite IH. cbn [fromhex].
    destruct (hex_digit_char (n / 16 mod 16)) as [-> ->];
      [apply N.mod_lt; lia|].
    destruct (hex_digit_char (n mod 16)) as [-> _]; [apply N.mod_lt; lia|].
    rewrite Nat2N.inj_succ, N.pow_succ_r'.
    assert (H1 : (n mod (256 * 256 ^ N.of_nat k)
                  = n mod 256 + 256 * (n / 256 mod 256 ^ N.of_nat k))%N)
      by apply N.Div0.mod_mul_r.
    assert (H2 : (n mod 256 = n mod 16 + 16 * (n / 16 mod 16))%N)
      by apply (N.Div0.mod_mul_r n 16 16).
    assert (H3 : (n / 16 / 16 = n / 256)%N) by apply N.Div0.div_div.
    rewrite H3, H1, H2. f_equal; lia.
Qed.

Lemma length_to_hex k n s :
  String.length (to_hex k n s) = (k + String.length s)%nat.
Proof.
  revert n s. induction k as [|k IH]; intros n s; [done|].
  cbn [to_hex]. rewrite IH. simpl. lia.
Qed.

(** The text of an ObjectId reads back as that ObjectId. *)
Lemma ObjectId_of_str_oid o :
  (oid_bits o < 2 ^ 96)%N -> ObjectId_of_str (str_oid o) = Some o.
Proof.
  intros Hlt. unfold ObjectId_of_str, str_oid.
  rewrite bool_decide_eq_true_2 by (by rewrite length_to_hex).
  rewrite (fromhex_to_hex 12). cbn [fromhex].
  change (256 ^ N.of_nat 12)%N with (2 ^ 96)%N.
  rewrite N.mod_small by done. by destruct o.
Qed.

(** ** Lists of documents *)

Lemma find_app_first (p : document -> bool) l1 d l2 :
  Forall (fun x => p x = false) l1 -> p d = true ->
  List.find p (l1 ++ d :: l2) = Some d.
Proof.
  intros Hall Hd. induction Hall as [|x l1 Hx _ IH]; simpl.
  - by rewrite Hd.
  - by rewrite Hx.
Qed.

Lemma find_app_keep (p : document -> bool) l l' d :
  List.find p l = Some d -> List.find p (l ++ l') = Some d.
Proof.
  induction l as [|x l IH]; simpl; [done|]. destruct (p x); auto.
Qed.

Lemma find_app_none (p : document -> bool) l l' :
  List.find p l = None -> List.find p (l ++ l') = List.find p l'.
Proof.
  induction l as [|x l IH]; simpl; [done|]. destruct (p x); [done|auto].
Qed.

Lemma update_first_none (p : document -> bool) f l :
  List.find p l = None -> update_first p f l = None.
Proof.
  induction l as [|x l IH]; simpl; [done|].
  destruct (p x); [done|]. intros H. by rewrite IH.
Qed.

Lemma find_fresh_id n (l : list document) :
  ids_below n l ->
  List.find (matches [("_id", VOid (mkObjectId n))]) l = None.
Proof.
  intros H. apply find_none_field. eapply Forall_impl; [exact H|].
  intros d Hd Hid. specialize (Hd _ Hid). simpl in Hd. lia.
Qed.

(** ** The serialised profile *)

(** X1: a stored user is serialised to exactly the nine profile keys,
    whatever else the record holds; an empty record gives [None], and a
    record without [_id] raises [KeyError]. *)
Theorem serialize_user_keys (u : document) e db :
  match u !! "_id" with
  | Some id =>
      exists r, serialize_user u e db = (inr (Some r), db)
                /\ dom r = serialized_keys
  | None =>
      serialize_user u e db
      = if bool_decide (u = ∅) then (inr None, db)
        else (inl (KeyError "_id"), db)
  end.
Proof.
  unfold serialize_user. destruct (u !! "_id") as [id|] eqn:Hid.
  - rewrite bool_decide_eq_false_2 by eauto using nonempty_lookup.
    run. rewrite Hid. eexists. split; [reflexivity|].
    rewrite !dom_insert_L, dom_empty_L. unfold serialized_keys. simpl.
    set_solver.
  - case_bool_decide; [reflexivity|]. run. by rewrite Hid.
Qed.

(** ** The admin guard *)

(** X2: behind [Depends(require_admin)] a resolved user whose [is_admin]
    is false, absent or otherwise falsy gets 403 'Admin privileges
    required' and the handler does not run; a user whose [is_admin] is
    true gets the handler's own outcome. *)
Theorem with_admin_guard {A} (handler : document -> M A) tok e db u :
  get_current_user tok e db = (inr u, db) ->
  with_admin handler tok e db
  = if truthy (get u "is_admin") then handler u e db
    else (inl (HTTPException 403 "Admin privileges required"), db).
Proof.
  intros Hauth. unfold with_admin, bind. rewrite Hauth.
  unfold require_admin. by destruct (truthy (get u "is_admin")).
Qed.

Lemma sample_root_resolved :
  get_current_user SampleAdmin.root_token Sample.env SampleAdmin.db
  = (inr SampleAdmin.root, SampleAdmin.db).
Proof. reflexivity. Qed.

Lemma with_admin_guard_witness :
  get_current_user SampleAdmin.root_token Sample.env SampleAdmin.db
  = (inr SampleAdmin.root, SampleAdmin.db)
  /\ with_admin admin_stats SampleAdmin.root_token Sample.env SampleAdmin.db
     = if truthy (get SampleAdmin.root "is_admin")
       then admin_stats SampleAdmin.root Sample.env SampleAdmin.db
       else (inl (HTTPException 403 "Admin privileges required"),
             SampleAdmin.db).
Proof.
  split; [exact sample_root_resolved|].
  exact (with_admin_guard admin_stats SampleAdmin.root_token Sample.env
           SampleAdmin.db SampleAdmin.root sample_root_resolved).
Defined.

(** ** Company approval *)

Lemma approval_union flag t (c : document) :
  to_store (<["approved" := VBool flag]> (<["updated_at" := VDatetime t]> ∅))
  ∪ c
  = approval flag (ms t) c.
Proof.
  rewrite to_store_insert_ne, to_store_updated_at by done.
  unfold approval. rewrite <- !insert_union_l. by rewrite (left_id_L ∅ (∪)).
Qed.

(** [approve_company], case by case. *)
Lemma approve_company_run payload admin e db :
  match ObjectId_of_str (ApproveCompanyModel.company_id payload) with
  | None =>
      approve_company payload admin e db
      = (inl (HTTPException 400 "Invalid company id"), db)
  | Some o =>
      match List.find (matches [("_id", VOid o)]) (db_company db) with
      | None =>
          approve_company payload admin e db
          = (inl (HTTPException 404 "Company not found"), db)
      | Some c =>
          exists l1 l2,
            db_company db = (l1 ++ c :: l2)%list
            /\ Forall (fun d => d !! "_id" ≠ Some (VOid o)) l1
            /\ approve_company payload admin e db
               = (inr {["status" := VStr "ok"]},
                  set_coll company
                    (l1 ++ approval (ApproveCompanyModel.approved payload)
                             (ms (now e)) c :: l2)%list db)
      end
  end.
Proof.
  unfold approve_company, ObjectId_is_valid, ObjectId_new.
  destruct (ObjectId_of_str _) as [o|] eqn:Ho; [|reflexivity]. run.
  unfold update_one.
  destruct (List.find _ _) as [c|] eqn:Hf.
  - destruct (update_first_find _
                (fun d => to_store
                            (<["approved" := VBool (ApproveCompanyModel.approved
                                                      payload)]>
                               (<["updated_at" := VDatetime (now e)]> ∅)) ∪ d)
                _ _ Hf) as (l1 & l2 & Hl & Hall & Hup).
    exists l1, l2. split; [done|]. split.
    + eapply Forall_impl; [exact Hall|]. intros d Hd Hid.
      apply (proj2 (matches_id d (VOid o))) in Hid.
      cbv beta in Hd. congruence.
    + simpl. rewrite Hup. simpl. by rewrite approval_union.
  - simpl. rewrite update_first_none by done. reflexivity.
Qed.

(** X3: what [approve_company] does, case by case.  An id that
    [ObjectId] does not take, the empty string included, gets 400
    'Invalid company id'; an id it takes that is the id of no stored
    company gets 404 'Company not found'; in both cases the store is
    untouched.  Otherwise the first company with that id gets the
    requested [approved] and, as [updated_at], the current time in the
    store's milliseconds, keeps every other field, and nothing else in the
    store changes. *)
Theorem approve_company_outcome payload admin e db :
  match ObjectId_of_str (ApproveCompanyModel.company_id payload) with
  | None =>
      approve_company payload admin e db
      = (inl (HTTPException 400 "Invalid company id"), db)
  | Some o =>
      match List.find (matches [("_id", VOid o)]) (db_company db) with
      | None =>
          approve_company payload admin e db
          = (inl (HTTPException 404 "Company not found"), db)
      | Some c =>
          exists l1 l2,
            db_company db = (l1 ++ c :: l2)%list
            /\ Forall (fun d => d !! "_id" ≠ Some (VOid o)) l1
            /\ approve_company payload admin e db
               = (inr {["status" := VStr "ok"]},
                  set_coll company
                    (l1 ++ approval (ApproveCompanyModel.approved payload)
                             (ms (now e)) c :: l2)%list db)
      end
  end.
Proof. apply approve_company_run. Qed.

Lemma approval_id flag t (c : document) : approval flag t c !! "_id" = c !! "_id".
Proof. unfold approval. by rewrite !lookup_insert_ne. Qed.

Lemma approval_approved flag t (c : document) :
  get (approval flag t c) "approved" = VBool flag.
Proof. unfold get, approval. by rewrite lookup_insert_eq. Qed.

Lemma approval_twice flag t (c : document) :
  approval flag t (approval flag t c) = approval flag t c.
Proof.
  apply map_eq. intros k. unfold approval.
  destruct (decide (k = "approved")) as [->|Hk1]; [by simplify_map_eq|].
  destruct (decide (k = "updated_at")) as [->|Hk2]; by simplify_map_eq.
Qed.

Lemma find_not_id (l : list document) v :
  Forall (fun d => d !! "_id" ≠ Some v) l ->
  Forall (fun x => matches [("_id", v)] x = false) l.
Proof.
  intros H. eapply Forall_impl; [exact H|]. intros d Hd.
  destruct (matches _ d) eqn:Hm; [|done]. by apply matches_id in Hm.
Qed.

Lemma first_split_unique (P : document -> Prop) l1 l2 l1' l2' x :
  Forall (fun d => ~ P d) l1 -> Forall (fun d => ~ P d) l1' -> P x ->
  (l1 ++ x :: l2)%list = (l1' ++ x :: l2')%list -> l1 = l1' /\ l2 = l2'.
Proof.
  intros H1. revert l1'. induction H1 as [|y l1 Hy _ IH]; intros l1' H1' Hx Heq.
  - destruct H1' as [|y l1' Hy _]; simpl in Heq; simplify_eq; done.
  - destruct H1' as [|z l1' Hz H1']; simpl in Heq; simplify_eq; [done|].
    destruct (IH l1' H1' Hx) as [-> ->]; done.
Qed.

(** What a successful [approve_company] leaves behind. *)
Lemma approve_company_ok payload admin e db r db1 :
  approve_company payload admin e db = (inr r, db1) ->
  exists o c l1 l2,
    ObjectId_of_str (ApproveCompanyModel.company_id payload) = Some o
    /\ c !! "_id" = Some (VOid o)
    /\ db_company db = (l1 ++ c :: l2)%list
    /\ Forall (fun d => d !! "_id" ≠ Some (VOid o)) l1
    /\ r = {["status" := VStr "ok"]}
    /\ db1 = set_coll company
               (l1 ++ approval (ApproveCompanyModel.approved payload)
                        (ms (now e)) c :: l2)%list db.
Proof.
  intros Hrun. pose proof (approve_company_run payload admin e db) as H.
  destruct (ObjectId_of_str _) as [o|]; [|congruence].
  destruct (List.find _ _) as [c|] eqn:Hf; [|congruence].
  destruct H as (l1 & l2 & Hl & Hall & H). rewrite H in Hrun.
  injection Hrun as <- <-. apply find_matches in Hf as [_ Hm].
  apply matches_id in Hm. exists o, c, l1, l2. done.
Qed.

(** X4: approving is idempotent: a request that has succeeded, sent again
    at the same instant, succeeds again and leaves the store as the first
    one left it. *)
Theorem approve_company_idempotent payload admin e db r db1 :
  approve_company payload admin e db = (inr r, db1) ->
  approve_company payload admin e db1 = (inr r, db1).
Proof.
  intros Hrun.
  destruct (approve_company_ok _ _ _ _ _ _ Hrun)
    as (o & c & l1 & l2 & Ho & Hid & Hl & Hall & -> & ->).
  pose proof (approve_company_run payload admin e
                (set_coll company
                   (l1 ++ approval (ApproveCompanyModel.approved payload)
                            (ms (now e)) c :: l2)%list db)) as H.
  rewrite Ho in H. cbn [set_coll db_company] in H |- *.
  rewrite find_app_first in H;
    [|by apply find_not_id|apply matches_id; by rewrite approval_id].
  destruct H as (l1' & l2' & Hl' & Hall' & H). rewrite H.
  f_equal. simpl. f_equal.
  assert (Hsplit : l1' = l1 /\ l2' = l2).
  { eapply (first_split_unique (fun d => d !! "_id" = Some (VOid o)));
      [exact Hall'|exact Hall| |symmetry; exact Hl'].
    by rewrite approval_id. }
  destruct Hsplit as [-> ->]. by rewrite approval_twice.
Qed.

Lemma sample_approve_initech :
  approve_company SampleAdmin.approve_initech SampleAdmin.root Sample.env
    SampleAdmin.db
  = (inr {["status" := VStr "ok"]},
     set_coll company
       [Sample.acme; approval true (now Sample.env) SampleAdmin.initech]
       SampleAdmin.db).
Proof. reflexivity. Qed.

Lemma approve_company_idempotent_witness :
  approve_company SampleAdmin.approve_initech SampleAdmin.root Sample.env
    SampleAdmin.db
  = (inr {["status" := VStr "ok"]},
     set_coll company
       [Sample.acme; approval true (now Sample.env) SampleAdmin.initech]
       SampleAdmin.db)
  /\ approve_company SampleAdmin.approve_initech SampleAdmin.root Sample.env
       (set_coll company
          [Sample.acme; approval true (now Sample.env) SampleAdmin.initech]
          SampleAdmin.db)
     = (inr {["status" := VStr "ok"]},
        set_coll company
          [Sample.acme; approval true (now Sample.env) SampleAdmin.initech]
          SampleAdmin.db).
Proof.
  split; [exact sample_approve_initech|].
  exact (approve_company_idempotent _ _ _ _ _ _ sample_approve_initech).
Defined.

(** X5: approval and assignment compose.  After a successful approval
    request for a company, a stored user's profile update naming that
    company succeeds and returns the company id when the request set
    [approved] to true, and fails with 'Company not approved', writing
    nothing, when it set it to false. *)
Theorem approve_then_assign payload admin e db r db1 data u uid e' :
  approve_company payload admin e db = (inr r, db1) ->
  ProfileUpdateModel.company_id data
  = Some (ApproveCompanyModel.company_id payload) ->
  List.find (matches [("_id", uid)]) (db_user db) = Some u ->
  if ApproveCompanyModel.approved payload then
    exists r' db2,
      update_profile data u e' db1 = (inr (Some r'), db2)
      /\ r' !! "company_id"
         = Some (VStr (ApproveCompanyModel.company_id payload))
      /\ db_company db2 = db_company db1
  else
    update_profile data u e' db1
    = (inl (HTTPException 400 "Company not approved"), db1).
Proof.
  intros Hrun Hcid Hu.
  destruct (approve_company_ok _ _ _ _ _ _ Hrun)
    as (o & c & l1 & l2 & Ho & Hid & Hl & Hall & -> & ->).
  set (c' := approval (ApproveCompanyModel.approved payload)
               (ms (now e)) c).
  assert (Hf : List.find (matches [("_id", VOid o)])
                 (db_company (set_coll company (l1 ++ c' :: l2)%list db))
               = Some c').
  { cbn [set_coll db_company]. apply find_app_first; [by apply find_not_id|].
    apply matches_id. unfold c'. by rewrite approval_id. }
  destruct (ApproveCompanyModel.approved payload) eqn:Hflag.
  - destruct (update_profile_assigns_company e'
                (set_coll company (l1 ++ c' :: l2)%list db) u data _ o c' uid
                Hcid Ho Hf)
      as (updates & l1' & l2' & r' & _ & _ & _ & Hup & Hr & _).
    + unfold c'. by rewrite approval_approved.
    + exact Hu.
    + eexists r', _. split; [exact Hup|]. split; [exact Hr|reflexivity].
  - apply (update_profile_not_approved e' _ u data _ o Hcid Ho).
    rewrite Hf. unfold c'. by rewrite approval_approved.
Qed.

Lemma approve_then_assign_witness :
  approve_company SampleAdmin.approve_initech SampleAdmin.root Sample.env
    SampleAdmin.db
  = (inr {["status" := VStr "ok"]},
     set_coll company
       [Sample.acme; approval true (now Sample.env) SampleAdmin.initech]
       SampleAdmin.db)
  /\ exists r' db2,
      update_profile
        (ProfileUpdateModel.mk None (Some SampleAdmin.initech_id) None None)
        Sample.alice Sample.env
        (set_coll company
           [Sample.acme; approval true (now Sample.env) SampleAdmin.initech]
           SampleAdmin.db)
      = (inr (Some r'), db2)
      /\ r' !! "company_id" = Some (VStr SampleAdmin.initech_id)
      /\ db_company db2
         = db_company
             (set_coll company
                [Sample.acme;
                 approval true (now Sample.env) SampleAdmin.initech]
                SampleAdmin.db).
Proof.
  split; [exact sample_approve_initech|].
  exact (approve_then_assign SampleAdmin.approve_initech SampleAdmin.root
           Sample.env SampleAdmin.db _ _
           (ProfileUpdateModel.mk None (Some SampleAdmin.initech_id) None None)
           Sample.alice (VOid (mkObjectId 1)) Sample.env
           sample_approve_initech eq_refl eq_refl).
Defined.

(** ** Profile update: what it can and cannot change *)

Lemma serialize_user_store u e db : (serialize_user u e db).2 = db.
Proof.
  unfold serialize_user. case_bool_decide; [reflexivity|]. run.
  by destruct (u !! "_id").
Qed.

Lemma update_first_some (p : document -> bool) f l l' :
  update_first p f l = Some l' ->
  exists l1 d l2, l = (l1 ++ d :: l2)%list /\ p d = true
                  /\ l' = (l1 ++ f d :: l2)%list.
Proof.
  revert l'. induction l as [|x l IH]; intros l'; simpl; [done|].
  destruct (p x) eqn:Hp.
  - intros [= <-]. by exists [], x, l.
  - destruct (update_first p f l) as [l0|]; [|done]. intros [= <-].
    destruct (IH l0 eq_refl) as (l1 & d & l2 & -> & Hd & ->).
    by exists (x :: l1), d, l2.
Qed.

Lemma update_profile_split data u :
  update_profile data u
  = (updates <-
       profile_company_stage data
         (set_if "full_name" (ProfileUpdateModel.full_name data)
            (set_if "cafe_name" (ProfileUpdateModel.cafe_name data)
               (set_if "country" (ProfileUpdateModel.country data) ∅))) ;;
     profile_write u updates).
Proof. reflexivity. Qed.

(** The company check reads only: it raises or hands on the updates,
    with [company_id] added when one was supplied. *)
Lemma profile_company_stage_outcome data (upd0 : document) e db :
  (exists err, profile_company_stage data upd0 e db = (inl err, db))
  \/ profile_company_stage data upd0 e db
     = (inr (match ProfileUpdateModel.company_id data with
             | Some cid => <["company_id" := VStr cid]> upd0
             | None => upd0
             end), db).
Proof.
  unfold profile_company_stage.
  destruct (ProfileUpdateModel.company_id data) as [cid|]; [|by right].
  destruct (_ && _); [left; by eexists|]. run.
  unfold ObjectId_new.
  destruct (ObjectId_of_str cid); run; [|left; by eexists].
  destruct (truthy_doc _) as [c|]; run; [|left; by eexists].
  destruct (negb _); run; [left; by eexists|by right].
Qed.

Lemma profile_write_store u (upd : document) e db :
  (profile_write u upd e db).2 = db
  \/ exists id l,
       u !! "_id" = Some id
       /\ update_first (matches [("_id", id)])
            (fun d => to_store (<["updated_at" := VDatetime (now e)]> upd) ∪ d)
            (db_user db) = Some l
       /\ (profile_write u upd e db).2 = set_coll user l db.
Proof.
  unfold profile_write.
  case_bool_decide; [left; apply serialize_user_store|]. run.
  destruct (u !! "_id") as [id|] eqn:Hid; run; [|by left].
  unfold update_one.
  destruct (update_first _ _ _) as [l|] eqn:Hup; run.
  - right. exists id, l. split; [done|]. split; [done|].
    apply serialize_user_store.
  - left. apply serialize_user_store.
Qed.

(** The store after [update_profile]: as before, or with one user of the
    caller's id overlaid with writable keys. *)
Lemma update_profile_store data u e db :
  exists updates : document,
    (forall k, k ∉ profile_keys -> updates !! k = None)
    /\ ((update_profile data u e db).2 = db
        \/ exists id l,
             u !! "_id" = Some id
             /\ update_first (matches [("_id", id)])
                  (fun d => updates ∪ d) (db_user db) = Some l
             /\ (update_profile data u e db).2 = set_coll user l db).
Proof.
  rewrite update_profile_split.
  set (upd0 := set_if "full_name" _ _).
  assert (H0 : forall k, k ∉ profile_keys -> upd0 !! k = None).
  { intros k Hk. unfold upd0, profile_keys in *.
    rewrite !set_if_lookup_ne by set_solver. apply lookup_empty. }
  unfold bind.
  destruct (profile_company_stage_outcome data upd0 e db) as [[err ->]| ->].
  { exists upd0. split; [done|by left]. }
  set (upd := match ProfileUpdateModel.company_id data with
              | Some cid => <["company_id" := VStr cid]> upd0
              | None => upd0
              end).
  exists (to_store (<["updated_at" := VDatetime (now e)]> upd)). split.
  - intros k Hk.
    assert (Hin : (<["updated_at" := VDatetime (now e)]> upd) !! k = None).
    { rewrite lookup_insert_ne by (unfold profile_keys in Hk; set_solver).
      unfold upd. destruct (ProfileUpdateModel.company_id data); [|by apply H0].
      rewrite lookup_insert_ne by (unfold profile_keys in Hk; set_solver).
      by apply H0. }
    rewrite to_store_lookup, Hin. by case_bool_decide.
  - apply profile_write_store.
Qed.

Lemma lookup_replace_middle (l1 : list document) x y l2 i d :
  (l1 ++ x :: l2)%list !! i = Some d ->
  (d = x /\ (l1 ++ y :: l2)%list !! i = Some y)
  \/ (l1 ++ y :: l2)%list !! i = Some d.
Proof.
  revert i. induction l1 as [|z l1 IH]; intros [|i]; simpl.
  - intros [= <-]. by left.
  - by right.
  - by right.
  - apply IH.
Qed.

(** X6: whatever the request and however it ends, [update_profile]
    leaves companies, pending requests, ranks and the id generator as
    they were, keeps the number of users, changes no user whose [_id]
    differs from the caller's, and on the caller's record changes nothing
    outside [country], [cafe_name], [full_name], [company_id] and
    [updated_at]: [email], [hashed_password] and [is_admin] are out of
    its reach. *)
Theorem update_profile_protected data u e db :
  db_company (update_profile data u e db).2 = db_company db
  /\ db_pendingcompanyrequest (update_profile data u e db).2
     = db_pendingcompanyrequest db
  /\ db_foodrank (update_profile data u e db).2 = db_foodrank db
  /\ next_oid (update_profile data u e db).2 = next_oid db
  /\ length (db_user (update_profile data u e db).2) = length (db_user db)
  /\ forall i d,
       db_user db !! i = Some d ->
       exists d',
         db_user (update_profile data u e db).2 !! i = Some d'
         /\ (forall k, k ∉ profile_keys -> d' !! k = d !! k)
         /\ (d !! "_id" ≠ u !! "_id" -> d' = d).
Proof.
  destruct (update_profile_store data u e db)
    as (updates & Hkeys & [-> | (id & l & Hid & Hup & ->)]).
  { repeat split; try done. intros i d Hd. exists d. done. }
  apply update_first_some in Hup as (l1 & d0 & l2 & Hl & Hm & ->).
  apply matches_id in Hm. cbn [set_coll db_user db_company
    db_pendingcompanyrequest db_foodrank next_oid].
  repeat split; try done.
  - rewrite Hl, !length_app. simpl. done.
  - intros i d Hd. rewrite Hl in Hd.
    destruct (lookup_replace_middle l1 d0 (updates ∪ d0) l2 i d Hd)
      as [[-> Hi]|Hi].
    + exists (updates ∪ d0). split; [done|]. split.
      * intros k Hk. rewrite lookup_union, (Hkeys k Hk).
        by destruct (d0 !! k).
      * intros Hne. congruence.
    + exists d. done.
Qed.

Ltac in_list :=
  repeat (apply list_elem_of_here || apply list_elem_of_further).

Lemma serialize_user_fields (u : document) id e db :
  u !! "_id" = Some id ->
  exists r, serialize_user u e db = (inr (Some r), db)
            /\ forall k, k ∈ ["email"; "full_name"; "country"; "company_id";
                              "cafe_name"; "created_at"; "updated_at"] ->
                         r !! k = Some (get u k).
Proof.
  intros Hid. unfold serialize_user.
  rewrite bool_decide_eq_false_2 by eauto using nonempty_lookup.
  run. rewrite Hid. eexists. split; [reflexivity|].
  intros k Hk. repeat (apply elem_of_cons in Hk as [->|Hk]; [by simplify_map_eq|]).
  by apply elem_of_nil in Hk.
Qed.

Lemma plain_updates_lookup data k :
  k ∈ ["country"; "cafe_name"; "full_name"] ->
  set_if "full_name" (ProfileUpdateModel.full_name data)
    (set_if "cafe_name" (ProfileUpdateModel.cafe_name data)
       (set_if "country" (ProfileUpdateModel.country data) ∅)) !! k
  = VStr <$> supplied data k.
Proof.
  intros Hk. unfold supplied, set_if.
  destruct data as [c ci cn fn]; simpl.
  repeat (apply elem_of_cons in Hk as [->|Hk];
          [destruct c, cn, fn; by simplify_map_eq|]).
  by apply elem_of_nil in Hk.
Qed.

(** X7: a profile update without a company id that supplies at least one
    of [country], [cafe_name] and [full_name] succeeds for a stored user:
    the user's record gets each supplied field, keeps each field not
    supplied, and gets as [updated_at] the current time cut to the
    store's milliseconds.  The profile returned shows the three fields as
    they are written and, as [updated_at], the current time itself: it is
    made from the handler's copy of the record, not read back. *)
Theorem update_profile_plain_fields data u uid e db k0 s0 :
  ProfileUpdateModel.company_id data = None ->
  List.find (matches [("_id", uid)]) (db_user db) = Some u ->
  k0 ∈ ["country"; "cafe_name"; "full_name"] ->
  supplied data k0 = Some s0 ->
  exists r l1 l2 u',
    db_user db = (l1 ++ u :: l2)%list
    /\ update_profile data u e db
       = (inr (Some r), set_coll user (l1 ++ u' :: l2)%list db)
    /\ u' !! "updated_at" = Some (VDatetime (ms (now e)))
    /\ r !! "updated_at" = Some (VDatetime (now e))
    /\ forall k, k ∈ ["country"; "cafe_name"; "full_name"] ->
         u' !! k = match supplied data k with
                   | Some s => Some (VStr s)
                   | None => u !! k
                   end
         /\ r !! k = Some (get u' k).
Proof.
  intros Hc Hu Hk0 Hs0. rewrite update_profile_split.
  set (upd0 := set_if "full_name" _ _).
  assert (Hupd0 : forall k, k ∈ ["country"; "cafe_name"; "full_name"] ->
                            upd0 !! k = VStr <$> supplied data k)
    by apply plain_updates_lookup.
  unfold bind at 1, profile_company_stage. rewrite Hc. run.
  unfold profile_write.
  rewrite bool_decide_eq_false_2.
  2:{ eapply nonempty_lookup. rewrite (Hupd0 k0 Hk0), Hs0. reflexivity. }
  run.
  pose proof Hu as Hid. apply find_matches in Hid as [_ Hid].
  apply matches_id in Hid. rewrite Hid. run.
  set (updates := <["updated_at" := VDatetime (now e)]> upd0).
  assert (Hst : to_store updates
                = <["updated_at" := VDatetime (ms (now e))]> upd0).
  { apply to_store_updated_at, plain_updates_created_at. }
  destruct (update_first_find (matches [("_id", uid)])
              (fun d => to_store updates ∪ d) _ _ Hu)
    as (l1 & l2 & Hl & _ & Hup).
  unfold update_one. cbn [coll]. rewrite Hup.
  assert (Hid' : (updates ∪ u) !! "_id" = Some (default uid (updates !! "_id"))).
  { rewrite lookup_union. destruct (updates !! "_id"); rewrite Hid; done. }
  destruct (serialize_user_fields (updates ∪ u) _ e
              (set_coll user (l1 ++ (to_store updates ∪ u) :: l2)%list db) Hid')
    as (r & Hr & Hfields).
  exists r, l1, l2, (to_store updates ∪ u).
  assert (Hupd : (updates ∪ u) !! "updated_at" = Some (VDatetime (now e))).
  { apply lookup_union_Some_l. apply lookup_insert_eq. }
  assert (Hplain : forall k, k ∈ ["country"; "cafe_name"; "full_name"] ->
            (to_store updates ∪ u) !! k = (updates ∪ u) !! k).
  { intros k Hk. rewrite !lookup_union, to_store_lookup_ne; [done| |];
      intros ->; repeat (apply elem_of_cons in Hk as [Hk|Hk]; [done|]);
      by apply elem_of_nil in Hk. }
  split; [done|]. split; [exact Hr|]. split.
  { apply lookup_union_Some_l. rewrite Hst. apply lookup_insert_eq. }
  split.
  - rewrite Hfields by in_list. unfold get. by rewrite Hupd.
  - intros k Hk. split.
    2:{ unfold get. rewrite (Hplain k Hk). apply Hfields.
        repeat (apply elem_of_cons in Hk as [->|Hk]; [in_list|]).
        by apply elem_of_nil in Hk. }
    rewrite (Hplain k Hk), lookup_union. unfold updates.
    rewrite lookup_insert_ne.
    2:{ intros <-. repeat (apply elem_of_cons in Hk as [Hk|Hk]; [done|]).
        by apply elem_of_nil in Hk. }
    rewrite (Hupd0 k Hk).
    destruct (supplied data k); simpl; [by destruct (u !! k)|].
    by destruct (u !! k).
Qed.

Lemma update_profile_plain_fields_witness :
  List.find (matches [("_id", VOid (mkObjectId 1))]) (db_user Sample.db)
  = Some Sample.alice
  /\ ms (now Sample.env_late) ≠ now Sample.env_late
  /\ exists r l1 l2 u',
    db_user Sample.db = (l1 ++ Sample.alice :: l2)%list
    /\ update_profile (ProfileUpdateModel.mk (Some "DE") None None None)
         Sample.alice Sample.env_late Sample.db
       = (inr (Some r), set_coll user (l1 ++ u' :: l2)%list Sample.db)
    /\ u' !! "updated_at" = Some (VDatetime (ms (now Sample.env_late)))
    /\ r !! "updated_at" = Some (VDatetime (now Sample.env_late))
    /\ forall k, k ∈ ["country"; "cafe_name"; "full_name"] ->
         u' !! k
         = match supplied (ProfileUpdateModel.mk (Some "DE") None None None) k
           with
           | Some s => Some (VStr s)
           | None => Sample.alice !! k
           end
         /\ r !! k = Some (get u' k).
Proof.
  split; [reflexivity|]. split; [discriminate|].
  apply (update_profile_plain_fields
           (ProfileUpdateModel.mk (Some "DE") None None None)
           Sample.alice (VOid (mkObjectId 1)) Sample.env_late Sample.db
           "country" "DE").
  - reflexivity.
  - reflexivity.
  - apply list_elem_of_here.
  - reflexivity.
Defined.

(** ** Company creation: uniqueness and assignment *)

(** X8: [create_company] keeps stored companies distinct in (name,
    country): if no two stored companies share both before the request,
    none do after it, however the request ends. *)
Theorem create_company_keeps_unique data u e db :
  companies_unique db ->
  companies_unique (create_company data u e db).2.
Proof.
  intros Huniq. rewrite create_company_run.
  destruct (List.find _ _) as [c|] eqn:Hf; [done|].
  destruct (u !! "_id") as [id|]; [|done].
  unfold companies_unique in *. cbn [snd db_company].
  rewrite fmap_app. apply NoDup_app. split; [done|]. split.
  - intros key Hin Hnew. apply list_elem_of_singleton in Hnew. subst key.
    apply list_elem_of_fmap in Hin as (d & Hkey & Hd).
    apply find_none_iff in Hf. rewrite Forall_forall in Hf.
    specialize (Hf d Hd).
    assert (matches [("name", VStr (CompanyCreateModel.name data));
                     ("country", VStr (CompanyCreateModel.country data))] d
            = true); [|congruence].
    apply matches_two. unfold company_doc in Hkey.
    injection Hkey as Hn Hc. revert Hn Hc. by simplify_map_eq.
  - apply NoDup_singleton.
Qed.

Lemma sample_admin_companies_unique : companies_unique SampleAdmin.db.
Proof.
  unfold companies_unique. cbn [SampleAdmin.db db_company fmap list_fmap].
  apply NoDup_cons. split; [|apply NoDup_singleton].
  intros H. apply list_elem_of_singleton in H. vm_compute in H.
  discriminate H.
Qed.

Lemma create_company_keeps_unique_witness :
  companies_unique SampleAdmin.db
  /\ length (db_company SampleAdmin.db) = 2%nat
  /\ length
       (db_company
          (create_company (CompanyCreateModel.mk "Globex" "US")
             SampleAdmin.root Sample.env SampleAdmin.db).2) = 3%nat
  /\ companies_unique
       (create_company (CompanyCreateModel.mk "Globex" "US")
          SampleAdmin.root Sample.env SampleAdmin.db).2.
Proof.
  split; [exact sample_admin_companies_unique|].
  split; [reflexivity|]. split; [reflexivity|].
  exact (create_company_keeps_unique (CompanyCreateModel.mk "Globex" "US")
           SampleAdmin.root Sample.env SampleAdmin.db
           sample_admin_companies_unique).
Defined.

(** X9: creation and assignment compose.  After a company is created,
    a stored user's profile update naming the new company's id succeeds
    when the creator is an admin, and fails with 'Company not approved'
    when the creator is not. *)
Theorem create_company_then_assign data creator e db r db1 pdata u uid e' :
  create_company data creator e db = (inr r, db1) ->
  ids_below (next_oid db) (db_company db) ->
  (next_oid db < 2 ^ 96)%N ->
  ProfileUpdateModel.company_id pdata
  = Some (str_oid (mkObjectId (next_oid db))) ->
  List.find (matches [("_id", uid)]) (db_user db) = Some u ->
  if truthy (get creator "is_admin") then
    exists r' db2,
      update_profile pdata u e' db1 = (inr (Some r'), db2)
      /\ r' !! "company_id"
         = Some (VStr (str_oid (mkObjectId (next_oid db))))
  else
    update_profile pdata u e' db1
    = (inl (HTTPException 400 "Company not approved"), db1).
Proof.
  intros Hrun Hids Hlt Hcid Hu. rewrite create_company_run in Hrun.
  destruct (List.find _ (db_company db)) as [c|]; [done|].
  destruct (creator !! "_id") as [id|]; [|done].
  cbv zeta in Hrun. injection Hrun as _ <-.
  set (oid := mkObjectId (next_oid db)) in *.
  set (doc := company_doc data creator id (ms (now e)) oid).
  assert (Ho : ObjectId_of_str (str_oid oid) = Some oid)
    by (by apply ObjectId_of_str_oid).
  set (db1 := mkDb _ _ _ _ _).
  assert (Hf : List.find (matches [("_id", VOid oid)]) (db_company db1)
               = Some doc).
  { unfold db1. cbn [db_company].
    rewrite find_app_none by (by apply find_fresh_id).
    cbn [List.find].
    rewrite (proj2 (matches_id doc (VOid oid))); [done|].
    apply lookup_insert_eq. }
  assert (Happ : get doc "approved" = VBool (truthy (get creator "is_admin"))).
  { unfold get, doc, company_doc. by simplify_map_eq. }
  destruct (truthy (get creator "is_admin")) eqn:Hadm.
  - destruct (update_profile_assigns_company e' db1 u pdata _ oid doc uid
                Hcid Ho Hf)
      as (updates & l1' & l2' & r' & _ & _ & _ & Hup & Hr & _).
    + by rewrite Happ.
    + exact Hu.
    + eexists r', _. split; [exact Hup|exact Hr].
  - apply (update_profile_not_approved e' db1 u pdata _ oid Hcid Ho).
    rewrite Hf. by rewrite Happ.
Qed.

Lemma ids_below_cons n m (d : document) l :
  d !! "_id" = Some (VOid (mkObjectId m)) -> (m < n)%N ->
  ids_below n l -> ids_below n (d :: l).
Proof.
  intros Hd Hm Hl. constructor; [|done]. intros o Ho.
  rewrite Hd in Ho. injection Ho as <-. done.
Qed.

Lemma create_company_then_assign_witness :
  ids_below (next_oid SampleAdmin.db) (db_company SampleAdmin.db)
  /\ if truthy (get SampleAdmin.root "is_admin") then
       exists r' db2,
         update_profile
           (ProfileUpdateModel.mk None
              (Some (str_oid (mkObjectId (next_oid SampleAdmin.db))))
              None None)
           Sample.alice Sample.env
           (create_company (CompanyCreateModel.mk "Globex" "US")
              SampleAdmin.root Sample.env SampleAdmin.db).2
         = (inr (Some r'), db2)
         /\ r' !! "company_id"
            = Some (VStr (str_oid (mkObjectId (next_oid SampleAdmin.db))))
     else
       update_profile
         (ProfileUpdateModel.mk None
            (Some (str_oid (mkObjectId (next_oid SampleAdmin.db))))
            None None)
         Sample.alice Sample.env
         (create_company (CompanyCreateModel.mk "Globex" "US")
            SampleAdmin.root Sample.env SampleAdmin.db).2
       = (inl (HTTPException 400 "Company not approved"),
          (create_company (CompanyCreateModel.mk "Globex" "US")
             SampleAdmin.root Sample.env SampleAdmin.db).2).
Proof.
  assert (H : ids_below (next_oid SampleAdmin.db) (db_company SampleAdmin.db)).
  { apply (ids_below_cons _ 2); [reflexivity..|].
    apply (ids_below_cons _ 6); [reflexivity..|]. constructor. }
  split; [exact H|].
  apply (create_company_then_assign (CompanyCreateModel.mk "Globex" "US")
           SampleAdmin.root Sample.env SampleAdmin.db
           (company_doc (CompanyCreateModel.mk "Globex" "US") SampleAdmin.root
              (VOid (mkObjectId 5)) (now Sample.env) (mkObjectId 16)
            ∪ {["_id" := VStr (py_str (VOid (mkObjectId 16)))]})
           _ _ Sample.alice (VOid (mkObjectId 1)) Sample.env).
  - reflexivity.
  - exact H.
  - reflexivity.
  - reflexivity.
  - reflexivity.
Defined.

(** ** Registration: emails, tokens and the new user *)

Lemma register_stored_plain payload e db oid company_id :
  email_free (RegisterModel.email payload) db ->
  (next_oid db <= oid_bits oid <= N.succ (next_oid db))%N ->
  (RegisterModel.company payload = None
   \/ RegisterModel.company payload = Some "" -> company_id = VNone) ->
  register_outcome payload e db
    (inr (token_for e oid),
     mkDb (db_user db ++ [user_doc_of payload company_id e oid])
       (db_company db) (db_pendingcompanyrequest db)
       (db_foodrank db) (N.succ (oid_bits oid))).
Proof.
  intros Hfree Hoid Hnone.
  pose proof (register_stored payload e db oid company_id [] Hfree Hoid) as H.
  rewrite app_nil_r in H. apply H; [by left|]. intros Hc. split; [auto|done].
Qed.

Lemma register_cases payload e db :
  register_outcome payload e db (register payload e db).
Proof.
  destruct (List.find (matches [("email", VStr (RegisterModel.email payload))])
              (db_user db)) as [d|] eqn:Hemail.
  { rewrite (register_taken _ _ _ _ Hemail). constructor.
    intros Hfree. apply find_email_none in Hfree. congruence. }
  pose proof (proj1 (find_email_none _ _) Hemail) as Hfree.
  destruct (RegisterModel.company payload) as [c|] eqn:Hc.
  2:{ rewrite register_run_none by auto.
      apply (register_stored_plain _ _ _ (mkObjectId (next_oid db)));
        [done|simpl; lia|done]. }
  destruct (decide (c = "")) as [->|Hne].
  { rewrite register_run_none by auto.
    apply (register_stored_plain _ _ _ (mkObjectId (next_oid db)));
      [done|simpl; lia|done]. }
  rewrite (register_run payload c e db) by done.
  destruct (lookup_company c db) as [d|].
  - destruct (d !! "_id") as [id|]; [|constructor].
    cbv zeta.
    apply (register_stored_plain _ _ _ (mkObjectId (next_oid db)));
      [done|simpl; lia|].
    intros [?|?]; congruence.
  - cbv zeta.
    apply (register_stored _ _ _ (mkObjectId (N.succ (next_oid db))));
      [done|simpl; lia|right; eauto|].
    intros [?|?]; congruence.
Qed.

(** X10: a registration with an email some stored user already has is
    refused with 'Email already registered' before anything is written:
    no user, no pending request. *)
Theorem register_duplicate_email payload e db :
  (exists d, d ∈ db_user db
             /\ d !! "email" = Some (VStr (RegisterModel.email payload))) ->
  register payload e db
  = (inl (HTTPException 400 "Email already registered"), db).
Proof.
  intros (d & Hin & Hd).
  destruct (proj1 (find_exists [("email", VStr (RegisterModel.email payload))]
                     (db_user db))) as [d' Hf].
  { exists d. split; [done|]. by apply matches_one. }
  by apply (register_taken _ _ _ d').
Qed.

Lemma register_duplicate_email_witness :
  (exists d, d ∈ db_user Sample.db
             /\ d !! "email"
                = Some (VStr (RegisterModel.email SampleReg.alice_again)))
  /\ register SampleReg.alice_again Sample.env Sample.db
     = (inl (HTTPException 400 "Email already registered"), Sample.db).
Proof.
  assert (H : exists d, d ∈ db_user Sample.db
                /\ d !! "email"
                   = Some (VStr (RegisterModel.email SampleReg.alice_again))).
  { exists Sample.alice. split; [apply list_elem_of_here|reflexivity]. }
  split; [exact H|].
  exact (register_duplicate_email SampleReg.alice_again Sample.env Sample.db H).
Defined.

(** X11: [register] keeps emails distinct: if no two stored users share
    an email before the request, none do after it, however it ends. *)
Theorem register_keeps_emails_unique payload e db :
  emails_unique db -> emails_unique (register payload e db).2.
Proof.
  intros Huniq.
  destruct (register_cases payload e db)
    as [Hn| |oid cid pend Hfree _ _ _]; [done..|].
  unfold emails_unique in *. cbn [snd db_user].
  rewrite fmap_app. apply NoDup_app. split; [done|]. split.
  - intros key Hin Hnew. apply list_elem_of_singleton in Hnew. subst key.
    apply list_elem_of_fmap in Hin as (d & Hkey & Hd).
    unfold email_free in Hfree. rewrite Forall_forall in Hfree.
    apply (Hfree d Hd). rewrite <- Hkey. unfold user_doc_of.
    by simplify_map_eq.
  - apply NoDup_singleton.
Qed.

Lemma register_keeps_emails_unique_witness :
  emails_unique Sample.db
  /\ emails_unique
       (register (SampleReg.carol (Some "Acme")) Sample.env Sample.db).2.
Proof.
  assert (H : emails_unique Sample.db) by apply NoDup_singleton.
  split; [exact H|].
  exact (register_keeps_emails_unique (SampleReg.carol (Some "Acme"))
           Sample.env Sample.db H).
Defined.

Lemma register_stored_shape payload e db tok db' :
  register payload e db = (inr tok, db') ->
  exists oid company_id pending,
    email_free (RegisterModel.email payload) db
    /\ (next_oid db <= oid_bits oid <= N.succ (next_oid db))%N
    /\ (pending = []
        \/ exists c, RegisterModel.company payload = Some c
                     /\ pending = [pending_of c (RegisterModel.country payload)
                                     e (mkObjectId (next_oid db))])
    /\ (RegisterModel.company payload = None
        \/ RegisterModel.company payload = Some "" ->
        company_id = VNone /\ pending = [])
    /\ tok = token_for e oid
    /\ db' = mkDb (db_user db ++ [user_doc_of payload company_id e oid])
               (db_company db) (db_pendingcompanyrequest db ++ pending)
               (db_foodrank db) (N.succ (oid_bits oid)).
Proof.
  intros Hrun. pose proof (register_cases payload e db) as Hcases.
  rewrite Hrun in Hcases.
  inversion Hcases as [| |oid cid pend Hfree Hoid Hpend Hnone]; subst.
  by exists oid, cid, pend.
Qed.

Lemma find_fresh_id_from n oid (l : list document) :
  ids_below n l -> (n <= oid_bits oid)%N ->
  List.find (matches [("_id", VOid oid)]) l = None.
Proof.
  intros H Hm. apply find_none_field. eapply Forall_impl; [exact H|].
  intros d Hd Hid. specialize (Hd _ Hid). lia.
Qed.

(** The token [register] and [login] hand out resolves, until it
    expires, the user whose id it names, when that user is the last one
    stored and the id is new. *)
Lemma token_for_resolves e oid (new : document) users_before db' t :
  db_user db' = (users_before ++ [new])%list ->
  new !! "_id" = Some (VOid oid) ->
  List.find (matches [("_id", VOid oid)]) users_before = None ->
  (oid_bits oid < 2 ^ 96)%N ->
  t < now e + timedelta_minutes ACCESS_TOKEN_EXPIRE_MINUTES ->
  get_current_user (token_for e oid) (at_time t e) db' = (inr new, db').
Proof.
  intros Husers Hid Hfresh Hlt Ht. unfold token_for.
  apply (signed_token_live e db' (str_oid oid) _ t oid new).
  - unfold timegm. apply Z.div_le_mono; lia.
  - by apply ObjectId_of_str_oid.
  - rewrite Husers, find_app_none by done. cbn [List.find].
    by rewrite (proj2 (matches_id new (VOid oid))).
Qed.

(** X12: the token a successful registration returns resolves, at any
    time within 24 hours of it, to the user just stored, who carries the
    registered email and [is_admin] false, so that every route behind
    the admin guard answers 403 to it. *)
Theorem register_token_resolves payload e db tok db' t :
  register payload e db = (inr tok, db') ->
  ids_below (next_oid db) (db_user db) ->
  (N.succ (next_oid db) < 2 ^ 96)%N ->
  t < now e + 24 * 60 * 60 * 1000000 ->
  exists u,
    get_current_user tok (at_time t e) db' = (inr u, db')
    /\ last (db_user db') = Some u
    /\ u !! "email" = Some (VStr (RegisterModel.email payload))
    /\ u !! "is_admin" = Some (VBool false)
    /\ forall A (handler : document -> M A),
         with_admin handler tok (at_time t e) db'
         = (inl (HTTPException 403 "Admin privileges required"), db').
Proof.
  intros Hrun Hids Hlt Ht.
  destruct (register_stored_shape _ _ _ _ _ Hrun)
    as (oid & cid & pend & Hfree & Hoid & Hpend & Hnone & -> & Hdb).
  symmetry in Hdb. set (new := user_doc_of payload cid e oid).
  assert (Hres : get_current_user (token_for e oid) (at_time t e) db'
                 = (inr new, db')).
  { apply (token_for_resolves e oid new (db_user db)).
    - by rewrite <- Hdb.
    - apply lookup_insert_eq.
    - apply (find_fresh_id_from (next_oid db)); [done|lia].
    - lia.
    - exact Ht. }
  exists new. split; [exact Hres|]. split.
  { rewrite <- Hdb. cbn [db_user]. apply last_snoc. }
  split; [unfold new, user_doc_of; by simplify_map_eq|].
  split; [unfold new, user_doc_of; by simplify_map_eq|].
  intros A handler. unfold with_admin, bind. rewrite Hres.
  unfold require_admin, get, new, user_doc_of. by simplify_map_eq.
Qed.

Lemma register_token_resolves_witness :
  ids_below (next_oid Sample.db) (db_user Sample.db)
  /\ exists u,
    get_current_user (token_for Sample.env (mkObjectId 16))
      (at_time (now Sample.env + 1) Sample.env)
      (register (SampleReg.carol None) Sample.env Sample.db).2
    = (inr u, (register (SampleReg.carol None) Sample.env Sample.db).2)
    /\ last (db_user (register (SampleReg.carol None) Sample.env Sample.db).2)
       = Some u
    /\ u !! "email"
       = Some (VStr (RegisterModel.email (SampleReg.carol None)))
    /\ u !! "is_admin" = Some (VBool false)
    /\ forall A (handler : document -> M A),
         with_admin handler (token_for Sample.env (mkObjectId 16))
           (at_time (now Sample.env + 1) Sample.env)
           (register (SampleReg.carol None) Sample.env Sample.db).2
         = (inl (HTTPException 403 "Admin privileges required"),
            (register (SampleReg.carol None) Sample.env Sample.db).2).
Proof.
  assert (H : ids_below (next_oid Sample.db) (db_user Sample.db)).
  { apply (ids_below_cons _ 1); [reflexivity..|]. constructor. }
  split; [exact H|].
  apply (register_token_resolves (SampleReg.carol None) Sample.env Sample.db
           _ _ (now Sample.env + 1)).
  - reflexivity.
  - exact H.
  - reflexivity.
  - simpl. lia.
Defined.

(** X13: a user registered without a company reference, or with the
    empty one, has no company: nothing is added to the pending requests,
    and a rank posted with the returned token fails with 'User has no
    company assigned', leaving the store as registration left it. *)
Theorem register_without_company_cannot_rank payload e db tok db' t data :
  register payload e db = (inr tok, db') ->
  RegisterModel.company payload = None
  \/ RegisterModel.company payload = Some "" ->
  ids_below (next_oid db) (db_user db) ->
  (N.succ (next_oid db) < 2 ^ 96)%N ->
  t < now e + 24 * 60 * 60 * 1000000 ->
  db_pendingcompanyrequest db' = db_pendingcompanyrequest db
  /\ db_foodrank db' = db_foodrank db
  /\ with_current_user (create_rank data) tok (at_time t e) db'
     = (inl NoCompanyAssigned, db').
Proof.
  intros Hrun Hc Hids Hlt Ht.
  destruct (register_stored_shape _ _ _ _ _ Hrun)
    as (oid & cid & pend & Hfree & Hoid & Hpend & Hnone & -> & Hdb).
  destruct (Hnone Hc) as [-> ->]. rewrite app_nil_r in Hdb.
  set (new := user_doc_of payload VNone e oid) in *.
  assert (Hres : get_current_user (token_for e oid) (at_time t e) db'
                 = (inr new, db')).
  { apply (token_for_resolves e oid new (db_user db)).
    - by rewrite Hdb.
    - apply lookup_insert_eq.
    - apply (find_fresh_id_from (next_oid db)); [done|lia].
    - lia.
    - exact Ht. }
  split; [by rewrite Hdb|]. split; [by rewrite Hdb|].
  rewrite (with_current_user_ok _ _ _ _ _ Hres).
  unfold create_rank.
  replace (truthy (get new "company_id")) with false; [reflexivity|].
  unfold get, new, user_doc_of. by simplify_map_eq.
Qed.

Lemma register_without_company_cannot_rank_witness :
  ids_below (next_oid Sample.db) (db_user Sample.db)
  /\ db_pendingcompanyrequest
       (register (SampleReg.carol (Some "")) Sample.env Sample.db).2
     = db_pendingcompanyrequest Sample.db
  /\ db_foodrank (register (SampleReg.carol (Some "")) Sample.env Sample.db).2
     = db_foodrank Sample.db
  /\ with_current_user (create_rank SampleRank.lunch)
       (token_for Sample.env (mkObjectId 16))
       (at_time (now Sample.env + 1) Sample.env)
       (register (SampleReg.carol (Some "")) Sample.env Sample.db).2
     = (inl NoCompanyAssigned,
        (register (SampleReg.carol (Some "")) Sample.env Sample.db).2).
Proof.
  assert (H : ids_below (next_oid Sample.db) (db_user Sample.db)).
  { apply (ids_below_cons _ 1); [reflexivity..|]. constructor. }
  split; [exact H|].
  apply (register_without_company_cannot_rank (SampleReg.carol (Some ""))
           Sample.env Sample.db _ _ (now Sample.env + 1) SampleRank.lunch).
  - reflexivity.
  - by right.
  - exact H.
  - reflexivity.
  - simpl. lia.
Defined.

(** ** Login *)

Lemma login_run verify payload e db :
  login verify payload e db =
  match List.find (matches [("email", VStr (LoginModel.email payload))])
          (db_user db) with
  | None => (inl (HTTPException 400 "Incorrect email or password"), db)
  | Some d =>
      if verify (LoginModel.password payload)
           (get_default d "hashed_password" (VStr ""))
      then match d !! "_id" with
           | Some id =>
               (inr (JWS (SECRET_KEY e)
                       (<["exp" := VInt
                            (timegm
                               (now e
                                + timedelta_minutes
                                    ACCESS_TOKEN_EXPIRE_MINUTES))]>
                          {["sub" := VStr (py_str id)]})), db)
           | None => (inl (KeyError "_id"), db)
           end
      else (inl (HTTPException 400 "Incorrect email or password"), db)
  end.
Proof.
  unfold login, get_user_by_email. run.
  destruct (List.find _ _) as [d|] eqn:Hf; run; [|reflexivity].
  apply find_matches in Hf as [_ Hm]. apply matches_one in Hm.
  rewrite bool_decide_eq_false_2 by eauto using nonempty_lookup.
  destruct (verify _ _); run; [|reflexivity].
  destruct (d !! "_id"); reflexivity.
Qed.

(** X14: [login] answers an unknown email and a wrong password alike,
    with 400 'Incorrect email or password', and writes nothing: the
    answer does not tell whether the email is registered. *)
Theorem login_failure_uniform verify payload e db :
  email_free (LoginModel.email payload) db
  \/ (exists d,
        List.find (matches [("email", VStr (LoginModel.email payload))])
          (db_user db) = Some d
        /\ verify (LoginModel.password payload)
             (get_default d "hashed_password" (VStr "")) = false) ->
  login verify payload e db
  = (inl (HTTPException 400 "Incorrect email or password"), db).
Proof.
  intros H. rewrite login_run. destruct H as [Hfree|(d & -> & Hv)].
  - apply find_email_none in Hfree. by rewrite Hfree.
  - by rewrite Hv.
Qed.

Lemma login_failure_uniform_witness :
  (email_free (LoginModel.email (LoginModel.mk "carol@example.com" "pw"))
     Sample.db
   \/ exists d,
        List.find
          (matches [("email",
                     VStr (LoginModel.email
                             (LoginModel.mk "carol@example.com" "pw")))])
          (db_user Sample.db) = Some d
        /\ SampleLogin.accept "$2b$12$secret"
             (LoginModel.password (LoginModel.mk "carol@example.com" "pw"))
             (get_default d "hashed_password" (VStr "")) = false)
  /\ login (SampleLogin.accept "$2b$12$secret")
       (LoginModel.mk "carol@example.com" "pw") Sample.env Sample.db
     = (inl (HTTPException 400 "Incorrect email or password"), Sample.db).
Proof.
  assert (H : email_free "carol@example.com" Sample.db).
  { repeat constructor. discriminate. }
  split; [left; exact H|].
  apply (login_failure_uniform (SampleLogin.accept "$2b$12$secret")
           (LoginModel.mk "carol@example.com" "pw") Sample.env Sample.db).
  left. exact H.
Defined.

(** X15: with the right password [login] returns a token that names the
    user's id and, at any time within 24 hours, resolves to that user;
    the store is not written. *)
Theorem login_token_resolves verify payload e db d o t :
  List.find (matches [("email", VStr (LoginModel.email payload))])
    (db_user db) = Some d ->
  verify (LoginModel.password payload)
    (get_default d "hashed_password" (VStr "")) = true ->
  d !! "_id" = Some (VOid o) ->
  List.find (matches [("_id", VOid o)]) (db_user db) = Some d ->
  (oid_bits o < 2 ^ 96)%N ->
  t < now e + 24 * 60 * 60 * 1000000 ->
  login verify payload e db = (inr (token_for e o), db)
  /\ get_current_user (token_for e o) (at_time t e) db = (inr d, db).
Proof.
  intros Hf Hv Hid Hfid Hlt Ht. rewrite login_run, Hf, Hv, Hid.
  split; [reflexivity|]. unfold token_for.
  apply (signed_token_live e db (str_oid o) _ t o d).
  - unfold timegm, timedelta_minutes, ACCESS_TOKEN_EXPIRE_MINUTES.
    apply Z.div_le_mono; lia.
  - by apply ObjectId_of_str_oid.
  - exact Hfid.
Qed.

Lemma login_token_resolves_witness :
  List.find
    (matches [("email", VStr (LoginModel.email SampleLogin.alice_login))])
    (db_user Sample.db) = Some Sample.alice
  /\ login (SampleLogin.accept "$2b$12$secret") SampleLogin.alice_login
       Sample.env Sample.db
     = (inr (token_for Sample.env (mkObjectId 1)), Sample.db)
  /\ get_current_user (token_for Sample.env (mkObjectId 1))
       (at_time (now Sample.env + 1) Sample.env) Sample.db
     = (inr Sample.alice, Sample.db).
Proof.
  split; [reflexivity|].
  apply (login_token_resolves (SampleLogin.accept "$2b$12$secret")
           SampleLogin.alice_login Sample.env Sample.db Sample.alice
           (mkObjectId 1) (now Sample.env + 1)).
  - reflexivity.
  - reflexivity.
  - reflexivity.
  - reflexivity.
  - reflexivity.
  - simpl. lia.
Defined.

(** ** Identity resolution: what a resolved user proves *)




(** ** Listings *)

Lemma set_str_ids_run (l : list document) e db :
  Forall (fun d => is_Some (d !! "_id")) l ->
  set_str_ids l e db = (inr (with_str_id <$> l), db).
Proof.
  induction 1 as [|d l [id Hid] _ IH]; [reflexivity|].
  change (set_str_ids (d :: l))
    with (id <- getitem d "_id" ;;
          rest' <- set_str_ids l ;;
          ret (<["_id" := VStr (py_str id)]> d :: rest')).
  unfold bind at 1, getitem. rewrite Hid. unfold ret at 1.
  unfold bind. rewrite IH. unfold ret.
  assert (Hd : with_str_id d = <["_id" := VStr (py_str id)]> d)
    by (unfold with_str_id, get; by rewrite Hid).
  cbn [fmap list_fmap]. by rewrite Hd.
Qed.

Lemma elem_of_filter_matches q (l : list document) d :
  d ∈ List.filter (matches q) l <-> d ∈ l /\ matches q d = true.
Proof. rewrite !list_elem_of_In. apply filter_In. Qed.

Lemma Forall_filter_sub (P : document -> Prop) f (l : list document) :
  Forall P l -> Forall P (List.filter f l).
Proof.
  rewrite !Forall_forall. intros H d Hd. apply H.
  apply list_elem_of_In, filter_In in Hd as [Hd _]. by apply list_elem_of_In.
Qed.

(** X17: [list_companies] reads only and, when every stored company has
    an [_id], returns exactly the stored companies whose [approved] is
    the requested value (true when none is requested) and whose
    [country] is the requested one when a non-empty one is given, each
    with its [_id] as text. *)
Theorem list_companies_result srt country approved e db :
  Forall (fun d => is_Some (d !! "_id")) (db_company db) ->
  exists res,
    list_companies srt country approved e db = (inr res, db)
    /\ forall r,
         r ∈ res <->
         exists c, c ∈ db_company db
                   /\ c !! "approved" = Some (VBool (default true approved))
                   /\ (forall s, country = Some s -> s ≠ "" ->
                                 c !! "country" = Some (VStr s))
                   /\ r = with_str_id c.
Proof.
  intros Hids. unfold list_companies. run.
  set (q0 := match approved with
             | Some a => [("approved", VBool a)]
             | None => [("approved", VBool true)]
             end).
  assert (Hq0 : q0 = [("approved", VBool (default true approved))])
    by (by destruct approved).
  set (q := if truthy (of_optional country) then _ else _).
  assert (Hq : forall c : document,
    matches q c = true <->
    c !! "approved" = Some (VBool (default true approved))
    /\ (forall s, country = Some s -> s ≠ "" ->
                  c !! "country" = Some (VStr s))).
  { intros c. unfold q. rewrite Hq0.
    destruct country as [s|]; cbn [of_optional truthy].
    - case_bool_decide as Hs; cbn [negb app].
      + subst s. rewrite matches_one. split; [|by intros [? _]].
        intros Ha. split; [done|]. by intros s [= <-].
      + rewrite matches_two. split.
        * intros [Ha Hc]. split; [done|]. by intros s' [= <-].
        * intros [Ha Hc]. split; [done|]. by apply Hc.
    - rewrite matches_one. split; [|by intros [? _]].
      intros Ha. split; [done|]. by intros s [=]. }
  rewrite set_str_ids_run.
  2:{ rewrite (sort_by_perm srt). by apply Forall_filter_sub. }
  eexists. split; [reflexivity|]. intros r.
  rewrite list_elem_of_fmap. split.
  - intros (c & -> & Hc). rewrite (sort_by_perm srt) in Hc.
    apply elem_of_filter_matches in Hc as [Hin Hm]. apply Hq in Hm as [Ha Hco].
    by exists c.
  - intros (c & Hin & Ha & Hco & ->). exists c. split; [done|].
    rewrite (sort_by_perm srt). apply elem_of_filter_matches.
    split; [done|]. by apply Hq.
Qed.

Lemma list_companies_result_witness :
  Forall (fun d => is_Some (d !! "_id")) (db_company SampleAdmin.db)
  /\ exists res,
    list_companies stored_order None None Sample.env SampleAdmin.db
    = (inr res, SampleAdmin.db)
    /\ forall r,
         r ∈ res <->
         exists c, c ∈ db_company SampleAdmin.db
                   /\ c !! "approved" = Some (VBool (default true None))
                   /\ (forall s, @None string = Some s -> s ≠ "" ->
                                 c !! "country" = Some (VStr s))
                   /\ r = with_str_id c.
Proof.
  assert (H : Forall (fun d => is_Some (d !! "_id"))
                (db_company SampleAdmin.db)).
  { repeat constructor; eexists; reflexivity. }
  split; [exact H|].
  exact (list_companies_result stored_order None None Sample.env
           SampleAdmin.db H).
Defined.

Lemma matches_app q1 q2 (d : document) :
  matches (q1 ++ q2) d = matches q1 d && matches q2 d.
Proof. unfold matches. apply forallb_app. Qed.

(** X18: [list_ranks] reads only and, when every stored rank has an
    [_id], returns at most 50 documents, each a stored rank with its
    [_id] as text, and each of the requested company when the company id
    given is one [ObjectId.is_valid] accepts. *)
Theorem list_ranks_bounded srt fromisoformat company_id date_str e db :
  Forall (fun d => is_Some (d !! "_id")) (db_foodrank db) ->
  exists res,
    list_ranks srt fromisoformat company_id date_str e db = (inr res, db)
    /\ (length res <= 50)%nat
    /\ forall r,
         r ∈ res ->
         exists c, c ∈ db_foodrank db /\ r = with_str_id c
                   /\ (forall s, company_id = Some s ->
                                 ObjectId_is_valid s = true ->
                                 c !! "company_id" = Some (VStr s)).
Proof.
  intros Hids. unfold list_ranks.
  set (q1 := match company_id with Some c => _ | None => _ end).
  set (q := match date_str with Some s => _ | None => _ end).
  unfold bind, find_docs. cbn [coll].
  assert (Hq : exists q2, q = (q1 ++ q2)%list).
  { unfold q. destruct date_str as [s|]; [|exists []; by rewrite app_nil_r].
    destruct (truthy (VStr s)); [|exists []; by rewrite app_nil_r].
    destruct (fromisoformat s); [by eexists|exists []; by rewrite app_nil_r]. }
  destruct Hq as [q2 Hq].
  assert (Hq1 : forall (c : document) s,
            matches q1 c = true -> company_id = Some s ->
            ObjectId_is_valid s = true -> c !! "company_id" = Some (VStr s)).
  { intros c s Hm -> Hv. unfold q1 in Hm. rewrite Hv, andb_true_r in Hm.
    destruct (truthy (VStr s)) eqn:Hs.
    - by apply matches_one in Hm.
    - cbn [truthy] in Hs. apply negb_false_iff, bool_decide_eq_true in Hs.
      subst s. discriminate Hv. }
  set (found := List.filter (matches q) (db_foodrank db)).
  assert (Hsub : forall c, c ∈ take 50 (sort_by srt "created_at" (-1) found)
                           -> c ∈ db_foodrank db /\ matches q1 c = true).
  { intros c Hc. apply subseteq_take in Hc.
    rewrite (sort_by_perm srt) in Hc.
    apply elem_of_filter_matches in Hc as [Hin Hm]. split; [done|].
    rewrite Hq, matches_app in Hm. by apply andb_true_iff in Hm as [Hm _]. }
  rewrite set_str_ids_run.
  2:{ rewrite Forall_forall. intros c Hc. apply Hsub in Hc as [Hc _].
      rewrite Forall_forall in Hids. by apply Hids. }
  eexists. split; [reflexivity|]. split.
  - rewrite length_fmap, length_take. lia.
  - intros r Hr. apply list_elem_of_fmap in Hr as (c & -> & Hc).
    apply Hsub in Hc as [Hin Hm]. exists c. split; [done|]. split; [done|].
    intros s Hs Hv. by apply (Hq1 c s).
Qed.

Lemma list_ranks_bounded_witness :
  Forall (fun d => is_Some (d !! "_id")) (db_foodrank SampleRank.busy_db)
  /\ length (db_foodrank SampleRank.busy_db) = 65%nat
  /\ ObjectId_is_valid "000000000000000000000002" = true
  /\ length
       (match
          (list_ranks stored_order (fun _ => None)
             (Some "000000000000000000000002") None Sample.env
             SampleRank.busy_db).1
        with inr res => res | inl _ => [] end) = 50%nat
  /\ exists res,
    list_ranks stored_order (fun _ => None)
      (Some "000000000000000000000002") None Sample.env SampleRank.busy_db
    = (inr res, SampleRank.busy_db)
    /\ (length res <= 50)%nat
    /\ forall r,
         r ∈ res ->
         exists c, c ∈ db_foodrank SampleRank.busy_db /\ r = with_str_id c
                   /\ (forall s, Some "000000000000000000000002" = Some s ->
                                 ObjectId_is_valid s = true ->
                                 c !! "company_id" = Some (VStr s)).
Proof.
  assert (H : Forall (fun d : document => is_Some (d !! "_id"))
                (db_foodrank SampleRank.busy_db)).
  { apply Forall_forall. intros d Hd. cbn [SampleRank.busy_db db_foodrank] in Hd.
    apply list_elem_of_fmap in Hd as (n & -> & _).
    eexists. apply lookup_insert_eq. }
  split; [exact H|]. split; [reflexivity|]. split; [reflexivity|].
  split; [vm_compute; reflexivity|].
  exact (list_ranks_bounded stored_order (fun _ => None)
           (Some "000000000000000000000002") None Sample.env
           SampleRank.busy_db H).
Defined.

(** X19: [list_ranks] does not refuse a filter it cannot use: a company
    id that [ObjectId.is_valid] rejects and a date that does not parse
    are dropped, and the request is answered as if no filter had been
    given. *)
Theorem list_ranks_ignores_bad_filters srt fromisoformat c s :
  ObjectId_is_valid c = false ->
  fromisoformat s = None ->
  list_ranks srt fromisoformat (Some c) (Some s)
  = list_ranks srt fromisoformat None None.
Proof.
  intros Hc Hs. unfold list_ranks. rewrite Hc, andb_false_r, Hs.
  by destruct (truthy (VStr s)).
Qed.

Lemma list_ranks_ignores_bad_filters_witness :
  ObjectId_is_valid "acme" = false
  /\ (fun _ : string => @None date) "yesterday" = None
  /\ list_ranks stored_order (fun _ => None) (Some "acme") (Some "yesterday")
     = list_ranks stored_order (fun _ => None) None None.
Proof.
  split; [reflexivity|]. split; [reflexivity|].
  apply (list_ranks_ignores_bad_filters stored_order (fun _ => None)
           "acme" "yesterday"); reflexivity.
Defined.

(** ** Statistics *)

Lemma filter_matches_all (l : list document) : List.filter (matches []) l = l.
Proof. induction l as [|d l IH]; [done|]. simpl. by rewrite IH. Qed.

Lemma filter_length_bound (f : document -> bool) l :
  (length (List.filter f l) <= length l)%nat.
Proof.
  induction l as [|d l IH]; simpl; [lia|]. destruct (f d); simpl; lia.
Qed.

Lemma admin_stats_run admin e db :
  admin_stats admin e db
  = (inr (stats (Z.of_nat (length (db_user db)))
            (Z.of_nat (length (db_company db)))
            (Z.of_nat (length (db_foodrank db)))
            (Z.of_nat (length (List.filter
                                 (matches [("approved", VBool false)])
                                 (db_company db))))), db).
Proof.
  unfold admin_stats, count_documents. run.
  by rewrite !filter_matches_all.
Qed.

(** X20: [admin_stats] reads only.  Its [pending_companies] is the
    number of stored companies with [approved] false, never more than
    [companies], and the collection of pending requests has no part in
    any of its figures. *)
Theorem admin_stats_counts admin e db :
  exists users companies ranks pending,
    admin_stats admin e db = (inr (stats users companies ranks pending), db)
    /\ users = Z.of_nat (length (db_user db))
    /\ companies = Z.of_nat (length (db_company db))
    /\ ranks = Z.of_nat (length (db_foodrank db))
    /\ pending
       = Z.of_nat (length (List.filter
                             (fun c => bool_decide
                                (c !! "approved" = Some (VBool false)))
                             (db_company db)))
    /\ 0 <= pending <= companies
    /\ forall requests,
         (admin_stats admin e (set_coll pendingcompanyrequest requests db)).1
         = inr (stats users companies ranks pending).
Proof.
  eexists _, _, _, _. split; [apply admin_stats_run|].
  assert (Hf : List.filter (matches [("approved", VBool false)]) (db_company db)
               = List.filter
                   (fun c => bool_decide (c !! "approved" = Some (VBool false)))
                   (db_company db)).
  { apply filter_ext. intros c. unfold matches. simpl. apply andb_true_r. }
  repeat split; try done.
  - by rewrite Hf.
  - lia.
  - pose proof (filter_length_bound (matches [("approved", VBool false)])
                  (db_company db)). lia.
  - intros requests. by rewrite admin_stats_run.
Qed.

(** X21: a registration that succeeds raises [users] in [admin_stats] by
    one and leaves [companies], [ranks] and [pending_companies] as they
    were, also when it wrote a pending request for an unknown company:
    such requests are not what [pending_companies] counts. *)
Theorem register_then_stats payload e db tok db' admin e' u c r p :
  register payload e db = (inr tok, db') ->
  admin_stats admin e' db = (inr (stats u c r p), db) ->
  admin_stats admin e' db' = (inr (stats (u + 1) c r p), db').
Proof.
  intros Hrun Hstats.
  destruct (register_stored_shape _ _ _ _ _ Hrun)
    as (oid & cid & pend & _ & _ & _ & _ & _ & ->).
  rewrite admin_stats_run in *. cbn [db_user db_company db_foodrank].
  assert (Hs := f_equal (fun x : (exn + document) * database =>
                           match x.1 with inr m => m | inl _ => ∅ end)
                  Hstats).
  cbn [fst] in Hs. clear Hstats.
  assert (Hlook : forall k, stats (Z.of_nat (length (db_user db)))
                    (Z.of_nat (length (db_company db)))
                    (Z.of_nat (length (db_foodrank db)))
                    (Z.of_nat (length (List.filter
                                 (matches [("approved", VBool false)])
                                 (db_company db)))) !! k
                  = stats u c r p !! k) by (by rewrite Hs).
  pose proof (Hlook "users") as Hu. pose proof (Hlook "companies") as Hc.
  pose proof (Hlook "ranks") as Hr.
  pose proof (Hlook "pending_companies") as Hp.
  unfold stats in Hu, Hc, Hr, Hp. simplify_map_eq.
  rewrite length_app. cbn [length]. do 2 f_equal. f_equal. lia.
Qed.

Lemma register_then_stats_witness :
  register (SampleReg.carol (Some "Initech")) Sample.env Sample.db
  = (inr (token_for Sample.env (mkObjectId 17)),
     (register (SampleReg.carol (Some "Initech")) Sample.env Sample.db).2)
  /\ admin_stats SampleAdmin.root Sample.env Sample.db
     = (inr (stats 1 1 0 0), Sample.db)
  /\ db_pendingcompanyrequest
       (register (SampleReg.carol (Some "Initech")) Sample.env Sample.db).2
     ≠ db_pendingcompanyrequest Sample.db
  /\ admin_stats SampleAdmin.root Sample.env
       (register (SampleReg.carol (Some "Initech")) Sample.env Sample.db).2
     = (inr (stats (1 + 1) 1 0 0),
        (register (SampleReg.carol (Some "Initech")) Sample.env Sample.db).2).
Proof.
  split; [reflexivity|]. split; [reflexivity|]. split; [discriminate|].
  apply (register_then_stats (SampleReg.carol (Some "Initech")) Sample.env
           Sample.db (token_for Sample.env (mkObjectId 17)) _
           SampleAdmin.root Sample.env 1 1 0 0); reflexivity.
Defined.

(** ** Registration and ranking *)

Lemma str_oid_nonempty o : str_oid o ≠ "".
Proof.
  intros H. apply (f_equal String.length) in H.
  unfold str_oid in H. rewrite length_to_hex in H. discriminate H.
Qed.

(** X22: a user registered with a reference to a stored company can post
    ranks at once: with the token registration returned, a rank with a
    rating from 1 to 5 is stored under that company's id, whether the
    company is approved or not. *)
Theorem register_then_rank payload c e db d o t data :
  email_free (RegisterModel.email payload) db ->
  RegisterModel.company payload = Some c -> c ≠ "" ->
  lookup_company c db = Some d ->
  d !! "_id" = Some (VOid o) ->
  ids_below (next_oid db) (db_user db) ->
  (next_oid db < 2 ^ 96)%N ->
  t < now e + 24 * 60 * 60 * 1000000 ->
  1 <= RankCreateModel.rating data <= 5 ->
  exists tok db1 r rank db2,
    register payload e db = (inr tok, db1)
    /\ with_current_user (create_rank data) tok (at_time t e) db1
       = (inr r, db2)
    /\ db_foodrank db2 = (db_foodrank db ++ [rank])%list
    /\ rank !! "company_id" = Some (VStr (str_oid o))
    /\ rank !! "rating" = Some (VInt (RankCreateModel.rating data)).
Proof.
  intros Hfree Hc Hne Hl Hid Hids Hlt Ht Hrating.
  rewrite (register_run payload c e db)
    by (try apply find_email_none; done).
  rewrite Hl, Hid. cbv zeta. cbn [str_if_oid].
  set (oid := mkObjectId (next_oid db)).
  set (new := user_doc_of payload (VStr (str_oid o)) e oid).
  set (db1 := mkDb _ _ _ _ _).
  assert (Hres : get_current_user (token_for e oid) (at_time t e) db1
                 = (inr new, db1)).
  { apply (token_for_resolves e oid new (db_user db)).
    - reflexivity.
    - apply lookup_insert_eq.
    - apply (find_fresh_id_from (next_oid db)); [done|]. simpl. lia.
    - exact Hlt.
    - exact Ht. }
  assert (Hnewid : new !! "_id" = Some (VOid oid)) by apply lookup_insert_eq.
  assert (Hco : get new "company_id" = VStr (str_oid o)).
  { unfold get, new, user_doc_of. by simplify_map_eq. }
  eexists _, db1, _, _, _. split; [reflexivity|].
  rewrite (with_current_user_ok _ _ _ _ _ Hres).
  rewrite (create_rank_run _ _ _ _ _ Hnewid), Hco.
  cbn [truthy negb].
  rewrite bool_decide_eq_false_2 by apply str_oid_nonempty. cbn [negb].
  replace (_ || _) with false.
  2:{ symmetry. apply orb_false_iff.
      rewrite Z.ltb_ge, Z.gtb_ltb, Z.ltb_ge. lia. }
  split; [reflexivity|]. split; [reflexivity|].
  unfold rank_of. rewrite Hco. split; by simplify_map_eq.
Qed.

Lemma register_then_rank_witness :
  email_free (RegisterModel.email (SampleReg.carol (Some "Initech")))
    SampleAdmin.db
  /\ get SampleAdmin.initech "approved" = VBool false
  /\ exists tok db1 r rank db2,
    register (SampleReg.carol (Some "Initech")) Sample.env SampleAdmin.db
    = (inr tok, db1)
    /\ with_current_user (create_rank SampleRank.lunch) tok
         (at_time (now Sample.env + 1) Sample.env) db1
       = (inr r, db2)
    /\ db_foodrank db2 = (db_foodrank SampleAdmin.db ++ [rank])%list
    /\ rank !! "company_id" = Some (VStr (str_oid (mkObjectId 6)))
    /\ rank !! "rating"
       = Some (VInt (RankCreateModel.rating SampleRank.lunch)).
Proof.
  assert (H : email_free "carol@example.com" SampleAdmin.db).
  { repeat constructor; discriminate. }
  split; [exact H|]. split; [reflexivity|].
  apply (register_then_rank (SampleReg.carol (Some "Initech")) "Initech"
           Sample.env SampleAdmin.db SampleAdmin.initech (mkObjectId 6)
           (now Sample.env + 1) SampleRank.lunch).
  - exact H.
  - reflexivity.
  - discriminate.
  - reflexivity.
  - reflexivity.
  - apply (ids_below_cons _ 1); [reflexivity..|].
    apply (ids_below_cons _ 5); [reflexivity..|]. constructor.
  - reflexivity.
  - simpl. lia.
  - simpl. lia.
Defined.
